(** * convert_alarm.py: the image provisioning pipeline

    A shallow embedding of [src/convert_alarm.py]: dependency check, archive
    download, size validation, image allocation and partitioning, followed
    by the properties of the pipeline that the specification states.

    Conventions of the embedding.
    - A Python [str] or [bytes] value is a [string]; texts are taken over
      the ASCII range (the theorems that depend on it say so).
    - The file system is a finite map from paths, compared as written, to
      the contents of regular files that the process may create, overwrite
      and unlink.
    - Everything the script cannot decide by itself (platform, installed
      tools, free space, what an external tool does, what the operator
      types) is read from a [World].
    - A function of the script is a computation [M A]: it takes the state
      (file system and trace of observable events) and ends by returning,
      by [sys.exit] or by an exception that nothing catches. *)

From Stdlib Require Import ZArith NArith String Ascii List Bool Lia.
From stdpp Require Import base option list gmap strings.

Local Open Scope string_scope.
Local Open Scope Z_scope.

(** ** Python built-ins used by the script *)

Module Py.

Definition code (c : ascii) : N := N_of_ascii c.

(** [Py_ISSPACE]: the white space that [int()] skips in an ASCII text. *)
Definition isspace (c : ascii) : bool :=
  (((9 <=? code c) && (code c <=? 13)) || (code c =? 32))%N.

(** [Py_UNICODE_ISSPACE] on the ASCII range: what [str.strip()] removes. *)
Definition unicode_isspace (c : ascii) : bool :=
  (isspace c || ((28 <=? code c) && (code c <=? 31)))%N.

Definition isdigit (c : ascii) : bool :=
  ((48 <=? code c) && (code c <=? 57))%N.

Definition digit_value (c : ascii) : option Z :=
  if isdigit c then Some (Z.of_N (code c) - 48) else None.

Definition is_underscore (c : ascii) : bool := (code c =? 95)%N.

(** [str.isascii()] *)
Fixpoint isascii (s : string) : bool :=
  match s with
  | EmptyString => true
  | String c r => (code c <? 128)%N && isascii r
  end.

(** [c.upper()] and [c.lower()] for one character. *)
Definition upper_char (c : ascii) : ascii :=
  if ((97 <=? code c) && (code c <=? 122))%N
  then ascii_of_N (code c - 32) else c.

Definition lower_char (c : ascii) : ascii :=
  if ((65 <=? code c) && (code c <=? 90))%N
  then ascii_of_N (code c + 32) else c.

Fixpoint lower (s : string) : string :=
  match s with
  | EmptyString => EmptyString
  | String c r => String (lower_char c) (lower r)
  end.

(** [s[:-1]]: all but the last character; empty for the empty text. *)
Fixpoint init (s : string) : string :=
  match s with
  | EmptyString => EmptyString
  | String c EmptyString => EmptyString
  | String c r => String c (init r)
  end.

(** [s[-1]]: the last character; [None] stands for [IndexError]. *)
Fixpoint last (s : string) : option ascii :=
  match s with
  | EmptyString => None
  | String c EmptyString => Some c
  | String c r => last r
  end.

(** [needle in hay] *)
Fixpoint contains (needle hay : string) : bool :=
  String.prefix needle hay ||
  match hay with
  | EmptyString => false
  | String _ r => contains needle r
  end.

Fixpoint lstrip_with (sp : ascii -> bool) (s : string) : string :=
  match s with
  | EmptyString => EmptyString
  | String c r => if sp c then lstrip_with sp r else s
  end.

Fixpoint rstrip_with (sp : ascii -> bool) (s : string) : string :=
  match s with
  | EmptyString => EmptyString
  | String c r =>
      match rstrip_with sp r with
      | EmptyString => if sp c then EmptyString else String c EmptyString
      | r' => String c r'
      end
  end.

(** [s.strip()], for an ASCII text: the white space of the ASCII range is
    removed at both ends. *)
Definition strip (s : string) : string :=
  rstrip_with unicode_isspace (lstrip_with unicode_isspace s).

(** *** [int(text)], base ten

    After CPython's [PyLong_FromString]: leading white space, an optional
    sign, decimal digits in which single underscores may separate digits,
    trailing white space, and nothing else.  Texts with more than
    [max_str_digits] digits are refused when that limit is set (it is
    [0] when unset, and the interpreter only applies it above 640
    digits).  [None] stands for [ValueError]. *)

(** The digit loop: how many digits, their value, and what follows. *)
Fixpoint scan (s : string) (prev_us : bool) (digits : nat) (acc : Z)
  : option (string * nat * Z) :=
  match s with
  | EmptyString => if prev_us then None else Some (s, digits, acc)
  | String c r =>
      if is_underscore c then
        if prev_us then None else scan r true digits acc
      else
        match digit_value c with
        | Some d => scan r false (S digits) (10 * acc + d)
        | None => if prev_us then None else Some (s, digits, acc)
        end
  end.

Definition split_sign (s : string) : bool * string :=
  match s with
  | String "+" r => (false, r)
  | String "-" r => (true, r)
  | _ => (false, s)
  end.

Definition leading_underscore (s : string) : bool :=
  match s with
  | String c _ => is_underscore c
  | EmptyString => false
  end.

Definition over_limit (max_str_digits digits : nat) : bool :=
  ((640 <? digits) && (0 <? max_str_digits) && (max_str_digits <? digits))%nat.

Definition int (max_str_digits : nat) (text : string) : option Z :=
  let (negative, body) := split_sign (lstrip_with isspace text) in
  if leading_underscore body then None else
  match scan body false 0 0 with
  | None => None
  | Some (rest, digits, v) =>
      match digits, lstrip_with isspace rest with
      | O, _ => None
      | _, String _ _ => None
      | _, EmptyString =>
          if over_limit max_str_digits digits then None
          else Some (if negative then - v else v)
      end
  end.

(** *** [data.decode('utf-8')], strict

    Only whether the bytes are well-formed UTF-8 matters to the script:
    ill-formed bytes raise [UnicodeDecodeError]. *)

Definition cont (c : ascii) : bool := ((128 <=? code c) && (code c <=? 191))%N.
Definition between (lo hi : N) (c : ascii) : bool :=
  ((lo <=? code c) && (code c <=? hi))%N.

Fixpoint utf8_valid (s : string) : bool :=
  match s with
  | EmptyString => true
  | String b0 r0 =>
      if (code b0 <? 128)%N then utf8_valid r0
      else match r0 with
      | EmptyString => false
      | String b1 r1 =>
          if between 194 223 b0 then cont b1 && utf8_valid r1
          else match r1 with
          | EmptyString => false
          | String b2 r2 =>
              if between 224 224 b0 then between 160 191 b1 && cont b2 && utf8_valid r2
              else if between 237 237 b0 then between 128 159 b1 && cont b2 && utf8_valid r2
              else if between 225 239 b0 then cont b1 && cont b2 && utf8_valid r2
              else match r2 with
              | EmptyString => false
              | String b3 r3 =>
                  if between 240 240 b0
                  then between 144 191 b1 && cont b2 && cont b3 && utf8_valid r3
                  else if between 241 243 b0
                  then cont b1 && cont b2 && cont b3 && utf8_valid r3
                  else if between 244 244 b0
                  then between 128 143 b1 && cont b2 && cont b3 && utf8_valid r3
                  else false
              end
          end
      end
  end.

End Py.

(** ** The process: state, outcomes, the world *)

(** The contents of a regular file. *)
Definition content := string.

(** [subprocess.CalledProcessError]: the command, its exit status and the
    captured standard error ([None] when it was not captured). *)
Record ProcError := {
  cmd : list string;
  returncode : Z;
  stderr : option string;
}.

Inductive Exn :=
| CalledProcessError (e : ProcError)
| KeyboardInterrupt
| FileNotFoundError
| UnicodeDecodeError
| EOFError
| KeyError.

Inductive Level := INFO | WARNING | ERROR.

(** One constructor per message of the script, with the values its text
    is formatted from; a diagnostic is kept as the bytes it renders. *)
Inductive Message :=
| unsupported_os
| unknown_distribution
| missing_tools (package_manager : string)
| missing_tool (tool hint : string)
| install_first
| downloading (url : string)
| insufficient_space (gigabytes : Z)
| download_done
| download_failed (e : ProcError)
| download_interrupted
| invalid_size (size : string)
| creating_image (size : string)
| output_exists (output_file : string)
| cancelled
| image_created
| image_warning (diagnostic : string)
| image_failed (e : ProcError)
| interrupted
| partitioning
| partitioned
| partition_warning (diagnostic : string)
| partition_failed (e : ProcError)
| check_space_and_rights
| banner
| step_tools
| step_download
| archive_found (tar_file : string)
| step_image.

(** What a run does that can be observed from outside. *)
Inductive Event :=
| Log (level : Level) (m : Message)
| Statvfs (path : string)
| Run (argv : list string) (input : option string)
| Prompt
| Remove (path : string).

Record State := {
  fs : gmap string content;
  trace : list Event;
}.

(** How a child process ends: with an exit status, by the operator's
    interrupt, or not at all because it could not be started. *)
Inductive Completion := Exited (status : Z) | Interrupted | NotStarted.

Record RunResult := {
  completion : Completion;
  captured_stderr : string;
  effect : gmap string content -> gmap string content;
}.

Record World := {
  platform : string;                        (* sys.platform *)
  which : string -> bool;                   (* shutil.which(cmd) finds it *)
  statvfs : string -> option (Z * Z);       (* f_frsize, f_bavail *)
  spawn : list string -> RunResult;         (* what the command does *)
  stdin_line : option string;               (* the line input() reads *)
  max_str_digits : nat;                     (* sys.get_int_max_str_digits() *)
}.

Inductive Res (A : Type) :=
| Return (a : A)
| SysExit (status : Z)
| Raise (e : Exn).
Arguments Return {A} a.
Arguments SysExit {A} status.
Arguments Raise {A} e.

Definition M (A : Type) : Type := State -> Res A * State.

Definition ret {A} (a : A) : M A := fun st => (Return a, st).

Definition bind {A B} (m : M A) (k : A -> M B) : M B :=
  fun st =>
    match m st with
    | (Return a, st') => k a st'
    | (SysExit c, st') => (SysExit c, st')
    | (Raise e, st') => (Raise e, st')
    end.

Notation "'let*' x ':=' m 'in' k" := (bind m (fun x => k))
  (at level 10, x name, m at level 100, k at level 200).
Notation "m ';;;' k" := (bind m (fun _ => k))
  (at level 100, k at level 200, right associativity).

Definition sys_exit {A} (status : Z) : M A := fun st => (SysExit status, st).
Definition raise {A} (e : Exn) : M A := fun st => (Raise e, st).

(** [try: body except ...: handler]: the handler chooses the exceptions it
    takes; [sys.exit] inside the body passes through. *)
Definition try_except {A} (body : M A) (handler : Exn -> option (M A)) : M A :=
  fun st =>
    match body st with
    | (Raise e, st') =>
        match handler e with
        | Some h => h st'
        | None => (Raise e, st')
        end
    | r => r
    end.

Definition emit (ev : Event) : M unit :=
  fun st => (Return tt, {| fs := fs st; trace := trace st ++ [ev] |}).

Definition logging (level : Level) (m : Message) : M unit := emit (Log level m).

Definition when (b : bool) (m : M unit) : M unit := if b then m else ret tt.

Fixpoint for_each {A} (l : list A) (body : A -> M unit) : M unit :=
  match l with
  | [] => ret tt
  | x :: r => body x ;;; for_each r body
  end.

(** The status the shell sees when the process ends. *)
Definition exit_status {A} (r : Res A) : Z :=
  match r with
  | Return _ => 0
  | SysExit c => c
  | Raise KeyboardInterrupt => 130
  | Raise _ => 1
  end.

(** ** Operating-system calls *)

Module Os.

Definition is_sep (c : ascii) : bool := (Py.code c =? 47)%N.

Fixpoint has_sep (p : string) : bool :=
  match p with
  | EmptyString => false
  | String c r => is_sep c || has_sep r
  end.

Fixpoint all_sep (p : string) : bool :=
  match p with
  | EmptyString => true
  | String c r => is_sep c && all_sep r
  end.

(** [p[:p.rfind('/') + 1]] *)
Fixpoint head_to_last_sep (p : string) : string :=
  match p with
  | EmptyString => EmptyString
  | String c r =>
      if has_sep r || is_sep c then String c (head_to_last_sep r)
      else EmptyString
  end.

(** [os.path.dirname] (posixpath) *)
Definition dirname (p : string) : string :=
  let head := head_to_last_sep p in
  match head with
  | EmptyString => head
  | _ => if all_sep head then head else Py.rstrip_with is_sep head
  end.

(** [os.path.exists] *)
Definition exists_ (p : string) : M bool :=
  fun st => (Return (match fs st !! p with Some _ => true | None => false end), st).

(** [os.remove] *)
Definition remove (p : string) : M unit :=
  fun st =>
    match fs st !! p with
    | Some _ => (Return tt, {| fs := delete p (fs st); trace := trace st ++ [Remove p] |})
    | None => (Raise FileNotFoundError, st)
    end.

(** [open(p).read()] *)
Definition read (p : string) : M string :=
  fun st =>
    match fs st !! p with
    | Some text => (Return text, st)
    | None => (Raise FileNotFoundError, st)
    end.

(** [os.statvfs]: the empty path names no file ([ENOENT]). *)
Definition os_statvfs (w : World) (p : string) : M (Z * Z) :=
  emit (Statvfs p) ;;;
  match p with
  | EmptyString => raise FileNotFoundError
  | _ => match statvfs w p with
         | Some st => ret st
         | None => raise FileNotFoundError
         end
  end.

End Os.

(** [subprocess.run(argv, input=..., check=True)], with standard error
    captured or not: the child acts on the file system, then the call
    returns the captured standard error or raises. *)
Definition subprocess_run (w : World) (argv : list string)
    (input : option string) (capture : bool) : M string :=
  emit (Run argv input) ;;;
  let r := spawn w argv in
  match completion r with
  | NotStarted => raise FileNotFoundError
  | Interrupted =>
      fun st => (Raise KeyboardInterrupt,
                 {| fs := effect r (fs st); trace := trace st |})
  | Exited status =>
      fun st =>
        let st' := {| fs := effect r (fs st); trace := trace st |} in
        if status =? 0 then (Return (if capture then captured_stderr r else ""), st')
        else (Raise (CalledProcessError
                       {| cmd := argv; returncode := status;
                          stderr := if capture then Some (captured_stderr r) else None |}),
              st')
  end.

(** [input(prompt)] *)
Definition input (w : World) : M string :=
  emit Prompt ;;;
  match stdin_line w with
  | Some line => ret line
  | None => raise EOFError
  end.

(** [data.decode('utf-8')]; the decoded text is kept in its encoding. *)
Definition decode (data : string) : M string :=
  if Py.utf8_valid data then ret data else raise UnicodeDecodeError.

(** ** The script *)

Definition REQUIRED_SPACE_GB : Z := 2.
Definition DEFAULT_IMAGE_SIZE : string := "128G".
Definition DEFAULT_OUTPUT_FILE : string := "alarm.qcow2".

Definition MIRRORS : gmap string string :=
  <["official" := "http://os.archlinuxarm.org/os/ArchLinuxARM-aarch64-latest.tar.gz"]>
  (<["tsinghua" := "https://mirrors.tuna.tsinghua.edu.cn/archlinuxarm/os/ArchLinuxARM-aarch64-latest.tar.gz"]> ∅).

(** [DEPENDENCIES], one table per platform, in the order written. *)
Definition DEPENDENCIES_darwin : list (string * string) :=
  [ ("qemu-img", "brew install qemu");
    ("kpartx", "brew install kpartx");
    ("gdisk", "brew install gptfdisk");
    ("mkfs.vfat", "通常包含在dosfstools包中");
    ("mkfs.ext4", "通常包含在e2fsprogs包中");
    ("bsdtar", "brew install libarchive") ].

Definition DEPENDENCIES_linux_debian : list (string * string) :=
  [ ("qemu-img", "apt install qemu-utils");
    ("kpartx", "apt install kpartx");
    ("gdisk", "apt install gdisk");
    ("mkfs.vfat", "apt install dosfstools");
    ("mkfs.ext4", "apt install e2fsprogs");
    ("bsdtar", "apt install libarchive-tools") ].

Definition DEPENDENCIES_linux_arch : list (string * string) :=
  [ ("qemu-img", "pacman -S qemu");
    ("kpartx", "pacman -S multipath-tools");
    ("gdisk", "pacman -S gptfdisk");
    ("mkfs.vfat", "pacman -S dosfstools");
    ("mkfs.ext4", "pacman -S e2fsprogs");
    ("bsdtar", "pacman -S libarchive") ].

(** The platform branch of [check_dependencies]: the package manager and
    the table of required tools. *)
Definition detect_platform (w : World) : M (string * list (string * string)) :=
  if String.eqb (platform w) "darwin" then ret ("brew", DEPENDENCIES_darwin)
  else
    try_except
      (let* text := Os.read "/etc/os-release" in
       let os_release := Py.lower text in
       if Py.contains "debian" os_release || Py.contains "ubuntu" os_release
       then ret ("apt", DEPENDENCIES_linux_debian)
       else if Py.contains "arch" os_release || Py.contains "manjaro" os_release
       then ret ("pacman", DEPENDENCIES_linux_arch)
       else logging ERROR unsupported_os ;;; sys_exit 1)
      (fun e => match e with
                | FileNotFoundError =>
                    Some (logging ERROR unknown_distribution ;;; sys_exit 1)
                | _ => None
                end).

Definition check_dependencies (w : World) : M unit :=
  let* found := detect_platform w in
  let package_manager := fst found in
  let required := snd found in
  let missing := List.filter (fun entry => negb (which w (fst entry))) required in
  match missing with
  | [] => ret tt
  | _ =>
      logging ERROR (missing_tools package_manager) ;;;
      for_each missing (fun entry => logging ERROR (missing_tool (fst entry) (snd entry))) ;;;
      logging INFO install_first ;;;
      sys_exit 1
  end.

(** [MIRRORS[key]] *)
Definition getitem (d : gmap string string) (key : string) : M string :=
  match d !! key with
  | Some v => ret v
  | None => raise KeyError
  end.

(** The clean-up shared by the failure handlers. *)
Definition remove_if_exists (output_file : string) : M unit :=
  let* present := Os.exists_ output_file in
  when present (Os.remove output_file).

Definition download_alarm (w : World) (output_file mirror : string) : M unit :=
  let* fallback := getitem MIRRORS "tsinghua" in
  let url := default fallback (MIRRORS !! mirror) in
  logging INFO (downloading url) ;;;
  let required_space := REQUIRED_SPACE_GB * 1024 ^ 3 in
  let* stat := Os.os_statvfs w (Os.dirname output_file) in
  let available_space := fst stat * snd stat in
  when (available_space <? required_space)
       (logging ERROR (insufficient_space REQUIRED_SPACE_GB) ;;; sys_exit 1) ;;;
  try_except
    (let cmd := ["curl"; "-#"; "-o"; output_file; url] in
     subprocess_run w cmd None false ;;;
     logging INFO download_done)
    (fun e =>
       match e with
       | CalledProcessError e =>
           Some (logging ERROR (download_failed e) ;;;
                 remove_if_exists output_file ;;;
                 sys_exit 1)
       | KeyboardInterrupt =>
           Some (logging WARNING download_interrupted ;;;
                 remove_if_exists output_file ;;;
                 sys_exit 1)
       | _ => None
       end).

(** The size check at the head of [create_image]: [None] when the script
    takes the [except (ValueError, IndexError)] branch, else [size_num]
    and [size_unit]. *)
Definition parse_size (w : World) (size : string) : option (Z * ascii) :=
  match Py.int (max_str_digits w) (Py.init size) with
  | None => None
  | Some size_num =>
      match Py.last size with
      | None => None
      | Some c =>
          let size_unit := Py.upper_char c in
          if existsb (Ascii.eqb size_unit) ["K"; "M"; "G"; "T"]%char
          then Some (size_num, size_unit)
          else None
      end
  end.

(** The line feed of the script's byte literals. *)
Definition LF : string := String (ascii_of_N 10) EmptyString.

(** The bytes handed to gdisk on its standard input. *)
Definition gdisk_script : string :=
  "o" ++ LF ++ "n" ++ LF ++ LF ++ LF ++ "+300M" ++ LF ++ "ef00" ++ LF
  ++ "n" ++ LF ++ LF ++ LF ++ LF ++ LF ++ "w" ++ LF ++ "y" ++ LF.

(** [if stderr: logging.warning(f"...{stderr.decode('utf-8').strip()}")] *)
Definition warn_if_stderr (warning : string -> Message) (data : string) : M unit :=
  match data with
  | EmptyString => ret tt
  | _ => let* _ := decode data in logging WARNING (warning data)
  end.

(** [logging.error(f"...{e.stderr.decode('utf-8').strip() if e.stderr else e}")] *)
Definition report_failure (failure : ProcError -> Message) (e : ProcError) : M unit :=
  match stderr e with
  | None | Some EmptyString => logging ERROR (failure e)
  | Some data => let* _ := decode data in logging ERROR (failure e)
  end.

Definition create_image (w : World) (output_file size : string) : M unit :=
  match parse_size w size with
  | None => logging ERROR (invalid_size size) ;;; sys_exit 1
  | Some _ => ret tt
  end ;;;
  logging INFO (creating_image size) ;;;
  (let* present := Os.exists_ output_file in
   when present
     (logging WARNING (output_exists output_file) ;;;
      let* answer := input w in
      let confirm := Py.lower (Py.strip answer) in
      when (negb (String.eqb confirm "y"))
           (logging INFO cancelled ;;; sys_exit 0))) ;;;
  try_except
    (let* result_stderr :=
       subprocess_run w ["qemu-img"; "create"; "-f"; "qcow2"; output_file; size] None true in
     logging INFO image_created ;;;
     warn_if_stderr image_warning result_stderr)
    (fun e =>
       match e with
       | CalledProcessError e =>
           Some (report_failure image_failed e ;;;
                 remove_if_exists output_file ;;;
                 sys_exit 1)
       | KeyboardInterrupt =>
           Some (logging WARNING interrupted ;;;
                 remove_if_exists output_file ;;;
                 sys_exit 1)
       | _ => None
       end) ;;;
  logging INFO partitioning ;;;
  try_except
    (let* result_stderr :=
       subprocess_run w ["gdisk"; output_file] (Some gdisk_script) true in
     logging INFO partitioned ;;;
     warn_if_stderr partition_warning result_stderr)
    (fun e =>
       match e with
       | CalledProcessError e =>
           Some (report_failure partition_failed e ;;;
                 logging INFO check_space_and_rights ;;;
                 sys_exit 1)
       | _ => None
       end).

(** The parsed command line.  argparse's [choices] leave two mirrors and
    two conversion targets. *)
Inductive MirrorChoice := official | tsinghua.
Inductive ConvertChoice := vmdk | parallels.

Definition mirror_name (m : MirrorChoice) : string :=
  match m with
  | official => "official"
  | tsinghua => "tsinghua"
  end.

Record Args := {
  arg_output : string;
  arg_size : string;
  arg_mirror : MirrorChoice;
  arg_convert_to : option ConvertChoice;
  arg_force : bool;
}.

Definition tar_file : string := "ArchLinuxARM-aarch64-latest.tar.gz".

(** [main], from the parsed arguments on. *)
Definition main (w : World) (args : Args) : M unit :=
  logging INFO banner ;;;
  logging INFO step_tools ;;;
  check_dependencies w ;;;
  logging INFO step_download ;;;
  (let* present := Os.exists_ tar_file in
   if negb present then download_alarm w tar_file (mirror_name (arg_mirror args))
   else logging INFO (archive_found tar_file)) ;;;
  logging INFO step_image ;;;
  create_image w (arg_output args) (arg_size args).

(** One run of the script on a file system. *)
Definition run (w : World) (args : Args) (disk : gmap string content) : Res unit * State :=
  main w args {| fs := disk; trace := [] |}.

Definition status_of (r : Res unit * State) : Z := exit_status (fst r).
Definition disk_of (r : Res unit * State) : gmap string content := fs (snd r).
Definition trace_of (r : Res unit * State) : list Event := trace (snd r).

(** ** Vocabulary of the claims *)

Definition is_run (ev : Event) : bool :=
  match ev with Run _ _ => true | _ => false end.

Definition is_remove (ev : Event) : bool :=
  match ev with Remove _ => true | _ => false end.

Definition is_prompt (ev : Event) : bool :=
  match ev with Prompt => true | _ => false end.

(** The events that only [download_alarm] produces. *)
Definition is_fetch (ev : Event) : bool :=
  match ev with
  | Log _ (downloading _) | Log _ (insufficient_space _) | Log _ download_done
  | Log _ (download_failed _) | Log _ download_interrupted => true
  | Statvfs _ => true
  | Run ("curl" :: _) _ => true
  | _ => false
  end.

(** The events that change the file system. *)
Definition mutates (ev : Event) : bool := is_run ev || is_remove ev.

(** The size tokens of the specification, in its own words: a positive
    integer written in decimal digits, then one of K, M, G, T in either
    case. *)
Definition spec_size_token (s : string) : bool :=
  match Py.last s with
  | None => false
  | Some c =>
      let digits := list_ascii_of_string (Py.init s) in
      negb (Nat.eqb (length digits) 0)
      && forallb Py.isdigit digits
      && existsb (fun d => negb (Ascii.eqb d "0")) digits
      && existsb (Ascii.eqb (Py.upper_char c)) ["K"; "M"; "G"; "T"]%char
  end.

(** ** The partitioning tool's dialogue

    GPT fdisk (gdisk) is not part of the script; this is the order in which
    its main menu reads lines from standard input, as far as the script's
    commands go.  [o] (new empty table) and [w] (write) each ask for a
    yes-or-no confirmation and ask again until the line starts with y or n;
    [n] (new partition) asks for the partition number, the first sector,
    the last sector and the type code, an empty line taking the default;
    an empty line at the menu does nothing and any other line shows the
    help.  [o_confirms] says whether [o] asks for its confirmation. *)

Module Gdisk.

Inductive Action :=
| new_table                                     (* o, confirmed *)
| table_kept                                    (* o, declined *)
| new_partition (number first_sector last_sector type_code : string)
| write_table                                   (* w, confirmed: gdisk writes and ends *)
| write_declined
| help (line : string).                         (* not a command *)

(** The lines of a script: the text before each line feed. *)
Fixpoint lines_from (current : string) (s : string) : list string :=
  match s with
  | EmptyString => match current with EmptyString => [] | _ => [current] end
  | String c r =>
      if (Py.code c =? 10)%N then current :: lines_from EmptyString r
      else lines_from (current ++ String c EmptyString) r
  end.

Definition lines (s : string) : list string := lines_from EmptyString s.

(** The answer to a yes-or-no question: the first line that starts with
    y or n, and the lines after it. *)
Fixpoint yes_no (input : list string) : option (bool * list string) :=
  match input with
  | [] => None
  | line :: rest =>
      match line with
      | String c _ =>
          if Ascii.eqb (Py.upper_char c) "Y" then Some (true, rest)
          else if Ascii.eqb (Py.upper_char c) "N" then Some (false, rest)
          else yes_no rest
      | EmptyString => yes_no rest
      end
  end.

Fixpoint menu (o_confirms : bool) (fuel : nat) (input : list string) : list Action :=
  match fuel, input with
  | O, _ | _, [] => []
  | S fuel, line :: rest =>
      match line with
      | EmptyString => menu o_confirms fuel rest
      | String c _ =>
          if Ascii.eqb (Py.lower_char c) "o" then
            if o_confirms then
              match yes_no rest with
              | Some (true, rest') => new_table :: menu o_confirms fuel rest'
              | Some (false, rest') => table_kept :: menu o_confirms fuel rest'
              | None => []
              end
            else new_table :: menu o_confirms fuel rest
          else if Ascii.eqb (Py.lower_char c) "n" then
            match rest with
            | number :: first_sector :: last_sector :: type_code :: rest' =>
                new_partition number first_sector last_sector type_code
                :: menu o_confirms fuel rest'
            | _ => []
            end
          else if Ascii.eqb (Py.lower_char c) "w" then
            match yes_no rest with
            | Some (true, _) => [write_table]
            | Some (false, rest') => write_declined :: menu o_confirms fuel rest'
            | None => []
            end
          else help line :: menu o_confirms fuel rest
      end
  end.

(** What gdisk does with a script. *)
Definition replay (o_confirms : bool) (script : string) : list Action :=
  menu o_confirms (length (lines script)) (lines script).

End Gdisk.

(** The messages of the dependency check. *)
Definition is_log (ev : Event) : bool :=
  match ev with
  | Log _ unsupported_os | Log _ unknown_distribution | Log _ (missing_tools _)
  | Log _ (missing_tool _ _) | Log _ install_first => true
  | _ => false
  end.

(** The call that starts gdisk. *)
Definition is_gdisk (ev : Event) : bool :=
  match ev with Run ("gdisk" :: _) _ => true | _ => false end.

(** The call that starts curl. *)
Definition is_curl (ev : Event) : bool :=
  match ev with Run ("curl" :: _) _ => true | _ => false end.

(** The call that starts qemu-img. *)
Definition is_qemu_img (ev : Event) : bool :=
  match ev with Run ("qemu-img" :: _) _ => true | _ => false end.

Definition unit_letter (u : ascii) : Prop :=
  u = "K"%char \/ u = "M"%char \/ u = "G"%char \/ u = "T"%char.

(** The state a run starts from. *)
Definition start (disk : gmap string content) : State :=
  {| fs := disk; trace := [] |}.

(** The address [download_alarm] fetches from. *)
Definition url_of (mirror : string) : string :=
  default "https://mirrors.tuna.tsinghua.edu.cn/archlinuxarm/os/ArchLinuxARM-aarch64-latest.tar.gz"
          (MIRRORS !! mirror).

(** The command lines the script builds. *)
Definition curl_argv (output_file mirror : string) : list string :=
  ["curl"; "-#"; "-o"; output_file; url_of mirror].
Definition qemu_img_argv (output_file size : string) : list string :=
  ["qemu-img"; "create"; "-f"; "qcow2"; output_file; size].
Definition gdisk_argv (output_file : string) : list string :=
  ["gdisk"; output_file].

(** ** Sample worlds

    A machine on which every tool is installed and the disk has room, with
    tools that do their work: curl writes the archive, qemu-img the image,
    gdisk the partition table. *)
Definition working_tools (argv : list string) : RunResult :=
  {| completion := Exited 0;
     captured_stderr := "";
     effect := fun d =>
       match argv with
       | ["curl"; _; _; output_file; _] => <[output_file := "archive"]> d
       | ["qemu-img"; _; _; _; output_file; _] => <[output_file := "empty image"]> d
       | ["gdisk"; output_file] => <[output_file := "partitioned image"]> d
       | _ => d
       end |}.

Definition sample_world (tools : list string -> RunResult) (answer : option string)
  : World :=
  {| platform := "darwin";
     which := fun _ => true;
     statvfs := fun _ => Some (4096, 1048576);
     spawn := tools;
     stdin_line := answer;
     max_str_digits := 4300 |}.

Definition sample_args (size : string) (forced : bool) : Args :=
  {| arg_output := DEFAULT_OUTPUT_FILE;
     arg_size := size;
     arg_mirror := tsinghua;
     arg_convert_to := None;
     arg_force := forced |}.

(** A working directory that already holds the archive. *)
Definition archive_only : gmap string content := {[ tar_file := "archive" ]}.

(** The same, with an image from an earlier run. *)
Definition archive_and_image : gmap string content :=
  <[DEFAULT_OUTPUT_FILE := "old image"]> archive_only.

(** A tool that fails after leaving a file behind, with the given bytes
    on standard error. *)
Definition failing_tool (status : Z) (diagnostic : string) (argv : list string)
  : RunResult :=
  {| completion := Exited status;
     captured_stderr := diagnostic;
     effect := fun d =>
       match argv with
       | ["curl"; _; _; output_file; _] => <[output_file := "partial archive"]> d
       | ["qemu-img"; _; _; _; output_file; _] => <[output_file := "partial image"]> d
       | _ => d
       end |}.

(** qemu-img works and gdisk fails. *)
Definition gdisk_fails (argv : list string) : RunResult :=
  match argv with
  | "gdisk" :: _ => failing_tool 2 "Problem opening file" argv
  | _ => working_tools argv
  end.

(** One byte that is not UTF-8. *)
Definition not_utf8 : string := String (ascii_of_N 255) EmptyString.

(** ** The texts that [int()] reads, as a grammar *)

(** Decimal digits in groups that single underscores separate, with the
    number of digits and the value. *)
Inductive numeral : string -> nat -> Z -> Prop :=
| numeral_digit c d :
    Py.digit_value c = Some d -> numeral (String c "") 1 d
| numeral_next s n v c d :
    numeral s n v -> Py.digit_value c = Some d ->
    numeral (s ++ String c "") (S n) (10 * v + d)
| numeral_group s n v c d :
    numeral s n v -> Py.digit_value c = Some d ->
    numeral (s ++ "_" ++ String c "") (S n) (10 * v + d).

Inductive sign_text : bool -> string -> Prop :=
| sign_none : sign_text false ""
| sign_plus : sign_text false "+"
| sign_minus : sign_text true "-".

Fixpoint blank (s : string) : bool :=
  match s with
  | EmptyString => true
  | String c r => Py.isspace c && blank r
  end.

(** White space, a sign, a numeral, white space; the digit limit kept. *)
Inductive int_literal (max_digits : nat) : string -> Z -> Prop :=
| int_literal_intro ws1 sign body ws2 negative n v :
    blank ws1 = true -> blank ws2 = true ->
    sign_text negative sign ->
    numeral body n v ->
    Py.over_limit max_digits n = false ->
    int_literal max_digits (ws1 ++ sign ++ body ++ ws2)
                (if negative then - v else v).

(** ** Vocabulary of the further properties *)

(** The tools that every table of [DEPENDENCIES] names, in its order. *)
Definition required_tools : list string :=
  ["qemu-img"; "kpartx"; "gdisk"; "mkfs.vfat"; "mkfs.ext4"; "bsdtar"].

(** The package managers and tables [check_dependencies] chooses from. *)
Definition platforms : list (string * list (string * string)) :=
  [("brew", DEPENDENCIES_darwin); ("apt", DEPENDENCIES_linux_debian);
   ("pacman", DEPENDENCIES_linux_arch)].

(** Whether [check_dependencies] finds a table for the machine: macOS, or
    an [/etc/os-release] that mentions one of the four distributions. *)
Definition recognised (w : World) (d : gmap string content) : bool :=
  String.eqb (platform w) "darwin" ||
  match d !! "/etc/os-release" with
  | Some text =>
      Py.contains "debian" (Py.lower text) || Py.contains "ubuntu" (Py.lower text)
      || Py.contains "arch" (Py.lower text) || Py.contains "manjaro" (Py.lower text)
  | None => false
  end.

(** The entries of a table whose tool is not installed. *)
Definition missing_from (w : World) (table : list (string * string))
  : list (string * string) :=
  List.filter (fun entry => negb (which w (fst entry))) table.

(** The messages that report them. *)
Definition missing_report (missing : list (string * string)) : list Event :=
  map (fun entry => Log ERROR (missing_tool (fst entry) (snd entry))) missing.

Definition is_message (ev : Event) : bool :=
  match ev with Log _ _ => true | _ => false end.

(** The characters of a text. *)
Definition chars (s : string) : list ascii := list_ascii_of_string s.

(** What [int()] lets through before the unit. *)
Definition magnitude_char (c : ascii) : bool :=
  Py.isdigit c || Py.is_underscore c || Py.isspace c
  || Ascii.eqb c "+" || Ascii.eqb c "-".

(** The operator's answer counts as a yes (read as the script does for
    an ASCII answer). *)
Definition confirms (answer : string) : bool :=
  String.eqb (Py.lower (Py.strip answer)) "y".

(** A Mac on which gdisk is not installed. *)
Definition mac_without_gdisk : World :=
  {| platform := "darwin";
     which := fun tool => negb (String.eqb tool "gdisk");
     statvfs := fun _ => None;
     spawn := working_tools;
     stdin_line := None;
     max_str_digits := 4300 |}.

(** A Linux machine with every tool installed. *)
Definition linux_machine : World :=
  {| platform := "linux";
     which := fun _ => true;
     statvfs := fun _ => None;
     spawn := working_tools;
     stdin_line := None;
     max_str_digits := 4300 |}.

(** A root file system of a distribution the script does not know. *)
Definition fedora_release : gmap string content :=
  {[ "/etc/os-release" := "ID=fedora" ]}.

(** qemu-img ended well: status 0, and what it wrote to standard error
    decodes. *)
Definition allocation_ok (w : World) (output_file size : string) : Prop :=
  completion (spawn w (qemu_img_argv output_file size)) = Exited 0 /\
  Py.utf8_valid (captured_stderr (spawn w (qemu_img_argv output_file size))) = true.

(** The same for gdisk. *)
Definition partitioning_ok (w : World) (output_file : string) : Prop :=
  completion (spawn w (gdisk_argv output_file)) = Exited 0 /\
  Py.utf8_valid (captured_stderr (spawn w (gdisk_argv output_file))) = true.

(** Nothing is in the way of the image: no file at the output, or the
    operator's yes. *)
Definition may_overwrite (w : World) (d : gmap string content) (output_file : string)
  : Prop :=
  d !! output_file = None \/
  exists answer, stdin_line w = Some answer /\ confirms answer = true.

(** A world whose operator answers and whose tools work. *)
Definition answering (answer : string) : World :=
  sample_world working_tools (Some answer).

(** qemu-img works; gdisk is interrupted by the operator. *)
Definition gdisk_interrupted (argv : list string) : RunResult :=
  match argv with
  | "gdisk" :: _ =>
      {| completion := Interrupted; captured_stderr := ""; effect := fun d => d |}
  | _ => working_tools argv
  end.

(** * Properties *)

(** ** The built-ins on small inputs *)

Example int_reads_padding_sign_and_underscores :
  Py.int 4300 "128" = Some 128 /\ Py.int 4300 " -1_000 " = Some (-1000) /\
  Py.int 4300 "+07" = Some 7.
Proof. repeat split; reflexivity. Qed.

Example int_refuses :
  Py.int 4300 "" = None /\ Py.int 4300 "ab" = None /\ Py.int 4300 "1__0" = None /\
  Py.int 4300 "_1" = None /\ Py.int 4300 "1_" = None /\ Py.int 4300 "+ 1" = None /\
  Py.int 4300 "1 2" = None /\ Py.int 4300 "12.5" = None.
Proof. repeat split; reflexivity. Qed.

Example dirname_samples :
  Os.dirname "downloads/archive.tar.gz" = "downloads" /\
  Os.dirname "/archive" = "/" /\ Os.dirname "a//b" = "a" /\
  Os.dirname "//a" = "//" /\ Os.dirname tar_file = "".
Proof. repeat split; reflexivity. Qed.

Example strip_samples :
  Py.strip "  y " = "y" /\ Py.strip " " = "" /\ Py.lower (Py.strip " Y") = "y".
Proof. repeat split; reflexivity. Qed.

Example decode_samples :
  Py.utf8_valid "Problem opening file" = true /\ Py.utf8_valid not_utf8 = false.
Proof. split; reflexivity. Qed.

Example size_samples :
  parse_size (sample_world working_tools None) "128G" = Some (128, "G"%char) /\
  parse_size (sample_world working_tools None) "512m" = Some (512, "M"%char) /\
  parse_size (sample_world working_tools None) "abc" = None /\
  parse_size (sample_world working_tools None) "G" = None /\
  parse_size (sample_world working_tools None) "" = None /\
  parse_size (sample_world working_tools None) "12X" = None.
Proof. repeat split; reflexivity. Qed.

(** ** Characters and texts *)

Ltac each_char c :=
  destruct c as [[] [] [] [] [] [] [] []]; try discriminate; try reflexivity.

Lemma append_cons x (r t : string) : String x r ++ t = String x (r ++ t).
Proof. reflexivity. Qed.

Lemma append_nil (t : string) : "" ++ t = t.
Proof. reflexivity. Qed.

Ltac norm_app := rewrite ?append_cons, ?append_nil in *.

Lemma append_assoc (a b c : string) : (a ++ b) ++ c = a ++ b ++ c.
Proof. induction a as [|x r IH]; norm_app; [reflexivity | now rewrite IH]. Qed.

Lemma append_empty (a : string) : a ++ "" = a.
Proof. induction a as [|x r IH]; norm_app; [reflexivity | now rewrite IH]. Qed.

Lemma underscore_char c : Py.is_underscore c = true -> c = "_"%char.
Proof. each_char c. Qed.

Lemma digit_not_underscore c d :
  Py.digit_value c = Some d -> Py.is_underscore c = false.
Proof. each_char c. Qed.

Lemma digit_not_space c d : Py.digit_value c = Some d -> Py.isspace c = false.
Proof. each_char c. Qed.

Lemma space_not_underscore c : Py.isspace c = true -> Py.is_underscore c = false.
Proof. each_char c. Qed.

Lemma space_not_digit c : Py.isspace c = true -> Py.digit_value c = None.
Proof. each_char c. Qed.

Lemma digit_no_sign c d r :
  Py.digit_value c = Some d -> Py.split_sign (String c r) = (false, String c r).
Proof. each_char c. Qed.

Lemma numeral_head body n v :
  numeral body n v ->
  exists c d r, body = String c r /\ Py.digit_value c = Some d /\ n <> O.
Proof.
  induction 1 as [c d H | s n v c d _ (c0 & d0 & r & -> & H0 & _) H
                 | s n v c d _ (c0 & d0 & r & -> & H0 & _) H].
  - exists c, d, ""; auto.
  - exists c0, d0, (r ++ String c ""); auto.
  - exists c0, d0, (r ++ "_" ++ String c ""); auto.
Qed.

Lemma lstrip_blank ws t :
  blank ws = true -> Py.lstrip_with Py.isspace (ws ++ t) = Py.lstrip_with Py.isspace t.
Proof.
  induction ws as [|c ws IH]; norm_app; simpl; [reflexivity |].
  intros [Hc Hws]%andb_true_iff. rewrite Hc. auto.
Qed.

Lemma lstrip_split s :
  exists ws, blank ws = true /\ s = ws ++ Py.lstrip_with Py.isspace s.
Proof.
  induction s as [|c s (ws & Hws & IH)]; simpl.
  - exists ""; auto.
  - destruct (Py.isspace c) eqn:Hc.
    + exists (String c ws); simpl. rewrite Hc, Hws. norm_app.
      split; [reflexivity | now f_equal].
    + exists ""; auto.
Qed.

Lemma lstrip_empty_blank s : Py.lstrip_with Py.isspace s = "" -> blank s = true.
Proof.
  induction s as [|c s IH]; simpl; [reflexivity |].
  destruct (Py.isspace c); [auto | discriminate].
Qed.

Lemma blank_lstrip s : blank s = true -> Py.lstrip_with Py.isspace s = "".
Proof.
  intros H. rewrite <- (append_empty s). now rewrite lstrip_blank.
Qed.

Lemma split_sign_sound s negative body :
  Py.split_sign s = (negative, body) ->
  exists sign, sign_text negative sign /\ s = sign ++ body.
Proof.
  destruct s as [|c r].
  - intros [= <- <-]. exists ""; split; [constructor | reflexivity].
  - destruct (Ascii.eqb_spec c "+") as [->|Hp]; [|destruct (Ascii.eqb_spec c "-") as [->|Hm]].
    + intros [= <- <-]. exists "+"; split; [constructor | reflexivity].
    + intros [= <- <-]. exists "-"; split; [constructor | reflexivity].
    + intros H. exists "".
      assert (Py.split_sign (String c r) = (false, String c r)) as E.
      { clear H. destruct c as [[] [] [] [] [] [] [] []]; try reflexivity; congruence. }
      rewrite E in H. injection H as <- <-. split; [constructor | reflexivity].
Qed.

(** ** The digit loop against the grammar *)

Lemma scan_numeral body n v :
  numeral body n v ->
  forall tail, Py.scan (body ++ tail) false 0 0 = Py.scan tail false n v.
Proof.
  induction 1 as [c d H | s n v c d _ IH H | s n v c d _ IH H]; intros tail.
  - norm_app. simpl. rewrite (digit_not_underscore _ _ H), H. reflexivity.
  - rewrite append_assoc, IH. norm_app. simpl.
    rewrite (digit_not_underscore _ _ H), H. reflexivity.
  - rewrite !append_assoc, IH. norm_app. simpl.
    rewrite (digit_not_underscore _ _ H), H. reflexivity.
Qed.

Lemma scan_stops_at_blank ws n v :
  blank ws = true -> Py.scan ws false n v = Some (ws, n, v).
Proof.
  destruct ws as [|c r]; simpl; [reflexivity |].
  intros [Hc _]%andb_true_iff.
  now rewrite (space_not_underscore _ Hc), (space_not_digit _ Hc).
Qed.

Lemma scan_sound s :
  forall prev_us pre n0 v0 rest n v,
    Py.scan s prev_us n0 v0 = Some (rest, n, v) ->
    (if prev_us then exists pre', pre = pre' ++ "_" /\ numeral pre' n0 v0
     else numeral pre n0 v0 \/
          (pre = "" /\ n0 = O /\ v0 = 0 /\ Py.leading_underscore s = false)) ->
    exists body,
      pre ++ s = body ++ rest /\ (numeral body n v \/ (body = "" /\ n = O)).
Proof.
  induction s as [|c s IH]; intros prev_us pre n0 v0 rest n v Hscan Hinv.
  - simpl in Hscan. destruct prev_us; [discriminate |].
    injection Hscan as <- <- <-. exists pre. split; [reflexivity |].
    destruct Hinv as [H | (-> & -> & _)]; auto.
  - simpl in Hscan. destruct (Py.is_underscore c) eqn:Hu.
    + destruct prev_us; [discriminate |].
      apply underscore_char in Hu as ->.
      destruct Hinv as [Hnum | (_ & _ & _ & Hlead)]; [| discriminate].
      destruct (IH true (pre ++ "_") n0 v0 rest n v Hscan) as (body & Hb & Hn).
      { exists pre. auto. }
      exists body. split; [| exact Hn].
      rewrite <- Hb, append_assoc. reflexivity.
    + destruct (Py.digit_value c) as [d|] eqn:Hd.
      * destruct (IH false (pre ++ String c "") (S n0) (10 * v0 + d) rest n v Hscan)
          as (body & Hb & Hn).
        { left. destruct prev_us.
          - destruct Hinv as (pre' & -> & Hnum). rewrite append_assoc.
            now apply numeral_group.
          - destruct Hinv as [Hnum | (-> & -> & -> & _)].
            + now apply numeral_next.
            + norm_app. simpl. now apply numeral_digit. }
        exists body. split; [| exact Hn].
        rewrite <- Hb, append_assoc. reflexivity.
      * destruct prev_us; [discriminate |].
        injection Hscan as <- <- <-. exists pre. split; [reflexivity |].
        destruct Hinv as [H | (-> & -> & _)]; auto.
Qed.

(** [int()] reads a text exactly when the grammar derives it, with that
    value. *)
Lemma int_sound max_digits text z :
  Py.int max_digits text = Some z -> int_literal max_digits text z.
Proof.
  unfold Py.int. intros H.
  destruct (lstrip_split text) as (ws1 & Hws1 & Htext).
  destruct (Py.split_sign (Py.lstrip_with Py.isspace text)) as [negative body_rest] eqn:Hsign.
  destruct (split_sign_sound _ _ _ Hsign) as (sign & Hs & Hsplit).
  destruct (Py.leading_underscore body_rest) eqn:Hlead; [discriminate |].
  destruct (Py.scan body_rest false 0 0) as [[[rest digits] v]|] eqn:Hscan; [| discriminate].
  destruct digits as [|k]; [discriminate |].
  destruct (Py.lstrip_with Py.isspace rest) eqn:Hrest; [| discriminate].
  destruct (Py.over_limit max_digits (S k)) eqn:Hlimit; [discriminate |].
  injection H as <-.
  destruct (scan_sound body_rest false "" 0%nat 0 rest (S k) v Hscan) as (body & Hb & Hn).
  { right. auto. }
  destruct Hn as [Hn | (_ & Hn)]; [| discriminate].
  norm_app. rewrite Htext, Hsplit, Hb.
  apply int_literal_intro with (n := S k); auto using lstrip_empty_blank.
Qed.

Lemma int_complete max_digits text z :
  int_literal max_digits text z -> Py.int max_digits text = Some z.
Proof.
  intros [ws1 sign body ws2 negative n v Hws1 Hws2 Hs Hnum Hlimit].
  destruct (numeral_head _ _ _ Hnum) as (c & d & r & Hbody & Hd & Hn).
  unfold Py.int. rewrite lstrip_blank by assumption.
  assert (Py.split_sign (Py.lstrip_with Py.isspace (sign ++ body ++ ws2))
          = (negative, body ++ ws2)) as ->.
  { destruct Hs; norm_app; subst body; norm_app; simpl;
      rewrite ?(digit_not_space _ _ Hd); eauto using digit_no_sign. }
  assert (Py.leading_underscore (body ++ ws2) = false) as ->.
  { subst body. norm_app. simpl. eauto using digit_not_underscore. }
  rewrite (scan_numeral _ _ _ Hnum), (scan_stops_at_blank _ _ _ Hws2).
  destruct n as [|k]; [congruence |].
  now rewrite (blank_lstrip _ Hws2), Hlimit.
Qed.

Lemma int_iff max_digits text z :
  Py.int max_digits text = Some z <-> int_literal max_digits text z.
Proof. split; [apply int_sound | apply int_complete]. Qed.

(** ** The last character and what precedes it *)

Lemma init_last_snoc text c :
  Py.init (text ++ String c "") = text /\ Py.last (text ++ String c "") = Some c.
Proof.
  induction text as [|x r [IHi IHl]]; norm_app; [split; reflexivity |].
  simpl. destruct (r ++ String c "") as [|y t] eqn:E.
  - destruct r; discriminate.
  - rewrite IHi, IHl. split; reflexivity.
Qed.

Lemma last_split s c : Py.last s = Some c -> s = Py.init s ++ String c "".
Proof.
  induction s as [|x r IH]; simpl; [discriminate |].
  destruct r as [|y t].
  - now intros [= ->].
  - intros H. norm_app. now rewrite <- (IH H).
Qed.

Lemma unit_letter_existsb u :
  existsb (Ascii.eqb u) ["K"; "M"; "G"; "T"]%char = true <-> unit_letter u.
Proof.
  unfold unit_letter. simpl. rewrite !orb_true_iff, !Ascii.eqb_eq.
  intuition discriminate.
Qed.

(** The check at the head of [create_image], as a grammar: the text before
    the last character is an [int()] literal, and the last character is
    one of K, M, G, T in either case. *)
Lemma parse_size_iff w size size_num size_unit :
  parse_size w size = Some (size_num, size_unit) <->
  exists text c,
    size = text ++ String c "" /\
    int_literal (max_str_digits w) text size_num /\
    size_unit = Py.upper_char c /\ unit_letter size_unit.
Proof.
  unfold parse_size. split.
  - destruct (Py.int (max_str_digits w) (Py.init size)) as [z|] eqn:Hint; [| discriminate].
    destruct (Py.last size) as [c|] eqn:Hlast; [| discriminate].
    destruct (existsb _ _) eqn:Hunit; [| discriminate].
    intros [= <- <-]. exists (Py.init size), c.
    split; [now apply last_split |].
    split; [now apply int_iff |].
    split; [reflexivity | now apply unit_letter_existsb].
  - intros (text & c & -> & Hint & -> & Hunit).
    destruct (init_last_snoc text c) as [-> ->].
    apply int_iff in Hint as ->.
    apply unit_letter_existsb in Hunit as ->. reflexivity.
Qed.

(** ** Running the script, one step at a time *)

Local Open Scope list_scope.

Ltac unbind := cbv beta iota zeta delta [bind].

Ltac exec :=
  cbv beta iota zeta delta
    [bind ret logging emit sys_exit raise when try_except remove_if_exists
     Os.exists_ Os.remove Os.read Os.os_statvfs input decode subprocess_run
     warn_if_stderr report_failure getitem start];
  simpl.

Lemma existsb_logs (p : Event -> bool) logs :
  (forall ev, is_log ev = true -> p ev = false) ->
  forallb is_log logs = true -> existsb p logs = false.
Proof.
  intros Hp. induction logs as [|ev logs IH]; simpl; [reflexivity |].
  intros [Hev Hlogs]%andb_true_iff. now rewrite (Hp ev Hev), IH.
Qed.

Lemma log_events ev :
  is_log ev = true ->
  is_fetch ev = false /\ mutates ev = false /\ is_gdisk ev = false /\
  is_prompt ev = false /\ is_remove ev = false.
Proof. destruct ev as [l [] | | | |]; try discriminate; repeat split. Qed.

Lemma logging_eq level m d t :
  logging level m {| fs := d; trace := t |}
  = (Return tt, {| fs := d; trace := t ++ [Log level m] |}).
Proof. reflexivity. Qed.

Lemma for_each_logging {A} (items : list A) (f : A -> Message) level d t :
  for_each items (fun x => logging level (f x)) {| fs := d; trace := t |}
  = (Return tt, {| fs := d; trace := t ++ map (fun x => Log level (f x)) items |}).
Proof.
  revert t. induction items as [|x items IH]; intros t; simpl.
  - now rewrite app_nil_r.
  - unbind. rewrite logging_eq. cbv beta iota.
    rewrite IH, <- app_assoc. reflexivity.
Qed.

Lemma forallb_missing_tools (items : list (string * string)) :
  forallb is_log
    (map (fun entry => Log ERROR (missing_tool (fst entry) (snd entry))) items) = true.
Proof. induction items; simpl; auto. Qed.

(** [detect_platform] and [check_dependencies] only read and log: they
    return or leave with status 1, the file system as it was. *)
Lemma detect_platform_outcome w d t :
  exists logs r, forallb is_log logs = true /\
    ((exists found, r = Return found) \/ r = SysExit 1) /\
    detect_platform w {| fs := d; trace := t |}
    = (r, {| fs := d; trace := t ++ logs |}).
Proof.
  unfold detect_platform. destruct (String.eqb (platform w) "darwin").
  - exists [], (Return ("brew", DEPENDENCIES_darwin)). rewrite app_nil_r. eauto.
  - exec. destruct (d !! "/etc/os-release") as [text|].
    + destruct (Py.contains "debian" (Py.lower text) || Py.contains "ubuntu" (Py.lower text)).
      { exists [], (Return ("apt", DEPENDENCIES_linux_debian)). rewrite app_nil_r. eauto. }
      destruct (Py.contains "arch" (Py.lower text) || Py.contains "manjaro" (Py.lower text)).
      { exists [], (Return ("pacman", DEPENDENCIES_linux_arch)). rewrite app_nil_r. eauto. }
      exists [Log ERROR unsupported_os], (SysExit 1). auto.
    + exists [Log ERROR unknown_distribution], (SysExit 1). auto.
Qed.

Lemma check_dependencies_outcome w d t :
  exists logs r, forallb is_log logs = true /\
    (r = Return tt \/ r = SysExit 1) /\
    check_dependencies w {| fs := d; trace := t |}
    = (r, {| fs := d; trace := t ++ logs |}).
Proof.
  unfold check_dependencies. unbind.
  destruct (detect_platform_outcome w d t) as (logs & r & Hlogs & [[found ->] | ->] & ->).
  - destruct (List.filter _ (snd found)) as [|entry missing].
    + exists logs, (Return tt). auto.
    + rewrite logging_eq. cbv beta iota.
      rewrite (for_each_logging (entry :: missing)
                 (fun entry => missing_tool (fst entry) (snd entry))).
      cbv beta iota. rewrite logging_eq. cbv beta iota delta [sys_exit]. simpl.
      exists (logs ++ Log ERROR (missing_tools (fst found))
                   :: Log ERROR (missing_tool (fst entry) (snd entry))
                   :: map (fun e => Log ERROR (missing_tool (fst e) (snd e))) missing
                   ++ [Log INFO install_first]), (SysExit 1).
      split; [| split; [auto |]].
      * rewrite forallb_app, Hlogs. simpl. rewrite forallb_app.
        rewrite (forallb_missing_tools missing). reflexivity.
      * do 2 f_equal. rewrite <- !app_assoc. reflexivity.
  - exists logs, (SysExit 1). auto.
Qed.

#[local] Arguments Py.utf8_valid : simpl never.
#[local] Arguments Py.strip : simpl never.
#[local] Arguments Py.lower : simpl never.
#[local] Arguments String.eqb : simpl never.
#[local] Arguments Z.mul : simpl never.
#[local] Arguments Z.ltb : simpl never.
#[local] Arguments Z.eqb : simpl never.

(** Case analysis on whatever the next step of the run depends on. *)
Ltac crunch :=
  repeat (simpl;
          match goal with
          | |- context [match ?x with _ => _ end] =>
              lazymatch x with
              | context [match _ with _ => _ end] => fail
              | _ => destruct x eqn:?
              end
          end).

(** ** The download stage *)

Lemma head_bare p : Os.has_sep p = false -> Os.head_to_last_sep p = "".
Proof.
  induction p as [|c r IH]; simpl; [reflexivity |].
  intros [Hc Hr]%orb_false_iff. now rewrite Hr, Hc.
Qed.

Lemma dirname_bare p : Os.has_sep p = false -> Os.dirname p = "".
Proof. intros H. unfold Os.dirname. now rewrite head_bare. Qed.

Lemma tsinghua_registered :
  MIRRORS !! "tsinghua"
  = Some "https://mirrors.tuna.tsinghua.edu.cn/archlinuxarm/os/ArchLinuxARM-aarch64-latest.tar.gz".
Proof. reflexivity. Qed.

(** With a bare file name the stage ends at [os.statvfs]. *)
Lemma download_alarm_bare w output_file mirror d t :
  Os.has_sep output_file = false ->
  download_alarm w output_file mirror {| fs := d; trace := t |}
  = (Raise FileNotFoundError,
     {| fs := d; trace := t ++ [Log INFO (downloading (url_of mirror)); Statvfs ""] |}).
Proof.
  intros H. unfold download_alarm, getitem. rewrite tsinghua_registered.
  rewrite (dirname_bare _ H). exec. rewrite <- app_assoc. reflexivity.
Qed.

(** ** The image stage *)

Lemma create_image_rejects w output_file size d t :
  parse_size w size = None ->
  create_image w output_file size {| fs := d; trace := t |}
  = (SysExit 1, {| fs := d; trace := t ++ [Log ERROR (invalid_size size)] |}).
Proof. intros H. unfold create_image. rewrite H. reflexivity. Qed.

(** ** The stages of a run

    The dependency check returns or leaves with status 1.  After it, the
    archive is either found and the image stage starts, or fetched under
    its bare name, which ends the run at [os.statvfs]. *)
Lemma main_stages w args disk :
  exists logs r,
    forallb is_log logs = true /\ (r = Return tt \/ r = SysExit 1) /\
    run w args disk =
    match r, disk !! tar_file with
    | Return _, Some _ =>
        create_image w (arg_output args) (arg_size args)
          {| fs := disk;
             trace := [Log INFO banner; Log INFO step_tools] ++ logs
                      ++ [Log INFO step_download; Log INFO (archive_found tar_file);
                          Log INFO step_image] |}
    | Return _, None =>
        (Raise FileNotFoundError,
         {| fs := disk;
            trace := [Log INFO banner; Log INFO step_tools] ++ logs
                     ++ [Log INFO step_download;
                         Log INFO (downloading (url_of (mirror_name (arg_mirror args))));
                         Statvfs ""] |})
    | _, _ =>
        (SysExit 1,
         {| fs := disk; trace := [Log INFO banner; Log INFO step_tools] ++ logs |})
    end.
Proof.
  unfold run, main. unbind. rewrite !logging_eq. cbv beta iota.
  change (([] ++ [Log INFO banner]) ++ [Log INFO step_tools])
    with [Log INFO banner; Log INFO step_tools].
  destruct (check_dependencies_outcome w disk [Log INFO banner; Log INFO step_tools])
    as (logs & r & Hlogs & Hr & ->).
  exists logs, r. split; [assumption |]. split; [assumption |].
  destruct Hr as [-> | ->]; [| now destruct (disk !! tar_file)].
  rewrite logging_eq. cbv beta iota delta [Os.exists_]. cbn [fs].
  destruct (disk !! tar_file) as [c|]; cbn [negb]; cbv iota.
  - rewrite !logging_eq. cbv beta iota. rewrite <- !app_assoc. reflexivity.
  - rewrite download_alarm_bare by reflexivity. rewrite <- !app_assoc. reflexivity.
Qed.

Lemma create_image_no_fetch w output_file size d t :
  exists evs,
    trace (snd (create_image w output_file size {| fs := d; trace := t |})) = t ++ evs /\
    existsb is_fetch evs = false.
Proof.
  unfold create_image. exec. crunch.
  all: simpl; rewrite <- ?app_assoc; simpl.
  all: eexists; split; reflexivity.
Qed.

(** ** The download stage is skipped when the archive is there *)

Lemma archive_present_no_fetch w args disk :
  is_Some (disk !! tar_file) ->
  existsb is_fetch (trace_of (run w args disk)) = false.
Proof.
  intros [c Hc]. unfold trace_of.
  destruct (main_stages w args disk) as (logs & r & Hlogs & [-> | ->] & ->);
    rewrite ?Hc.
  - destruct (create_image_no_fetch w (arg_output args) (arg_size args) disk
                ([Log INFO banner; Log INFO step_tools] ++ logs
                 ++ [Log INFO step_download; Log INFO (archive_found tar_file);
                     Log INFO step_image])) as (evs & -> & Hevs).
    rewrite !existsb_app, Hevs. simpl.
    rewrite (existsb_logs is_fetch logs); [reflexivity | | assumption].
    intros ev Hev. now apply log_events.
  - simpl. rewrite (existsb_logs is_fetch logs); [reflexivity | | assumption].
    intros ev Hev. now apply log_events.
Qed.

(** C9. If the archive file already exists and is not empty when the
    pipeline starts, the run contains no event of the fetch stage: no
    free-space query, no transfer, none of its messages. *)
Theorem archive_present_skips_fetch w args disk archive :
  disk !! tar_file = Some archive -> archive <> "" ->
  existsb is_fetch (trace_of (run w args disk)) = false.
Proof. intros H _. apply archive_present_no_fetch. eauto. Qed.

Lemma archive_present_skips_fetch_witness :
  archive_only !! tar_file = Some "archive" /\ "archive" <> "" /\
  existsb is_fetch
    (trace_of (run (sample_world working_tools None) (sample_args "128G" false)
                   archive_only)) = false.
Proof.
  split; [reflexivity |]. split; [discriminate |].
  apply (archive_present_skips_fetch _ _ _ "archive"); [reflexivity | discriminate].
Defined.

(** C10. [download_alarm] asks [os.statvfs] about the directory part of
    the destination.  For a destination without directory part that part
    is the empty text, and the call raises [FileNotFoundError] right after
    the first message: no space is compared and no transfer starts.  The
    orchestrator passes such a name, so a run that does not find the
    archive ends there, or earlier at the dependency check, with the file
    system untouched and no tool started. *)
Theorem statvfs_on_bare_name_raises w output_file mirror d t :
  Os.has_sep output_file = false ->
  Os.dirname output_file = "" /\
  download_alarm w output_file mirror {| fs := d; trace := t |}
  = (Raise FileNotFoundError,
     {| fs := d;
        trace := t ++ [Log INFO (downloading (url_of mirror)); Statvfs ""] |}) /\
  Os.has_sep tar_file = false /\
  forall args disk,
    disk !! tar_file = None ->
    (fst (run w args disk) = Raise FileNotFoundError \/
     fst (run w args disk) = SysExit 1) /\
    disk_of (run w args disk) = disk /\
    existsb is_run (trace_of (run w args disk)) = false.
Proof.
  intros H. split; [now apply dirname_bare |].
  split; [now apply download_alarm_bare |].
  split; [reflexivity |].
  intros args disk Hnone. unfold disk_of, trace_of.
  destruct (main_stages w args disk) as (logs & r & Hlogs & [-> | ->] & ->);
    rewrite ?Hnone; simpl; rewrite ?existsb_app; simpl;
    rewrite (existsb_logs is_run logs); auto;
    intros ev Hev; destruct ev; try discriminate; reflexivity.
Qed.

Lemma statvfs_on_bare_name_raises_witness :
  Os.has_sep "archive.tar.gz" = false /\ Os.dirname "archive.tar.gz" = "".
Proof.
  split; [reflexivity |].
  apply (statvfs_on_bare_name_raises (sample_world working_tools None)
           "archive.tar.gz" "tsinghua" ∅ []).
  reflexivity.
Defined.

(** ** Size validation *)

(** C1, as stated, fails: "0G" is not a positive integer followed by a
    unit, yet the script takes it, and with the archive at hand the run
    goes through allocation and partitioning and ends with status 0. *)
Lemma zero_size_runs_to_completion :
  ~ (spec_size_token (arg_size (sample_args "0G" false)) = false ->
     status_of (run (sample_world working_tools None) (sample_args "0G" false)
                    archive_only) <> 0 /\
     disk_of (run (sample_world working_tools None) (sample_args "0G" false)
                  archive_only) = archive_only).
Proof.
  intros H. destruct (H eq_refl) as [Hstatus _]. apply Hstatus.
  vm_compute. reflexivity.
Qed.

(** C1, amended.  An ASCII size that the check of [create_image] refuses
    ends the run with a status other than 0, the file system as it was, no
    tool started and no file removed.  The check opens the image stage,
    which comes after the download stage: when the archive is there that
    stage is skipped, and when it is missing the run has ended in it, at
    [os.statvfs], before the size is looked at. *)
Theorem refused_size_ends_run w args disk :
  Py.isascii (arg_size args) = true ->
  parse_size w (arg_size args) = None ->
  status_of (run w args disk) <> 0 /\
  disk_of (run w args disk) = disk /\
  existsb mutates (trace_of (run w args disk)) = false /\
  (is_Some (disk !! tar_file) ->
   fst (run w args disk) = SysExit 1 /\
   existsb is_fetch (trace_of (run w args disk)) = false).
Proof.
  intros _ Hsize.
  split; [| split; [| split]]; [| | | intros Harchive; split;
                                         [| now apply archive_present_no_fetch]];
    unfold status_of, disk_of, trace_of;
    destruct (main_stages w args disk) as (logs & r & Hlogs & [-> | ->] & ->);
    try (destruct Harchive as [c Hc]; rewrite ?Hc);
    try destruct (disk !! tar_file) as [c'|];
    rewrite ?create_image_rejects by assumption;
    cbn [fst snd fs trace exit_status];
    try discriminate; try reflexivity.
  all: rewrite ?app_assoc; rewrite ?existsb_app; simpl;
    rewrite ?existsb_app; simpl;
    rewrite ?(existsb_logs mutates logs); try reflexivity; try assumption;
    try (intros ev Hev; now apply log_events).
Qed.

Lemma refused_size_ends_run_witness :
  Py.isascii "abc" = true /\
  parse_size (sample_world working_tools None) "abc" = None /\
  status_of (run (sample_world working_tools None) (sample_args "abc" false)
                 archive_only) <> 0.
Proof.
  split; [reflexivity |]. split; [reflexivity |].
  apply (refused_size_ends_run (sample_world working_tools None)
           (sample_args "abc" false) archive_only); reflexivity.
Defined.

(** C2, as stated, fails: a zero, a negative and a padded magnitude are
    all taken. *)
Lemma zero_negative_padded_sizes_pass :
  ~ (forall size,
       spec_size_token size = false ->
       parse_size (sample_world working_tools None) size = None).
Proof.
  intros H.
  assert (parse_size (sample_world working_tools None) "0G" = Some (0, "G"%char)
          /\ parse_size (sample_world working_tools None) "-5G" = Some (-5, "G"%char)
          /\ parse_size (sample_world working_tools None) " 5 g" = Some (5, "G"%char))
    as (Hzero & _ & _) by (repeat split; reflexivity).
  rewrite (H "0G" eq_refl) in Hzero. discriminate.
Qed.

(** C2, amended.  For an ASCII text, the check of [create_image] passes
    exactly when the text is an [int()] literal followed by one of K, M,
    G, T in either case: white space, an optional sign, digits with single
    underscores between them, white space, the unit.  It then yields the
    integer and the upper-case unit.  Every other text makes [create_image]
    log the error and leave with status 1, with no size put in its place,
    no tool started and the file system as it was. *)
Theorem size_check_accepts_int_literals w size :
  Py.isascii size = true ->
  (forall size_num size_unit,
     parse_size w size = Some (size_num, size_unit) <->
     exists text c,
       size = (text ++ String c "")%string /\
       int_literal (max_str_digits w) text size_num /\
       size_unit = Py.upper_char c /\ unit_letter size_unit) /\
  (parse_size w size = None ->
   forall output_file d t,
     create_image w output_file size {| fs := d; trace := t |}
     = (SysExit 1, {| fs := d; trace := t ++ [Log ERROR (invalid_size size)] |})).
Proof.
  intros _. split.
  - intros size_num size_unit. apply parse_size_iff.
  - intros H output_file d t. now apply create_image_rejects.
Qed.

Lemma size_check_accepts_int_literals_witness :
  Py.isascii "128G" = true /\
  parse_size (sample_world working_tools None) "128G" = Some (128, "G"%char).
Proof.
  split; [reflexivity |].
  apply (size_check_accepts_int_literals (sample_world working_tools None) "128G");
    [reflexivity |].
  exists "128", "G"%char. split; [reflexivity |].
  split; [| split; [reflexivity | right; right; left; reflexivity]].
  apply (int_literal_intro 4300 "" "" "128" "" false 3 128); try reflexivity;
    [constructor |].
  apply (numeral_next "12" 2 12 "8" 8); [| reflexivity].
  apply (numeral_next "1" 1 1 "2" 2); [| reflexivity].
  now apply numeral_digit.
Defined.

(** ** Failures of the transfer *)

Ltac zero_status :=
  repeat match goal with
         | H : (_ =? 0) = true |- _ => apply Z.eqb_eq in H
         | H : (_ =? 0) = false |- _ => apply Z.eqb_neq in H
         end.

(** C8. When curl has been started and ends with a status other than 0,
    or the operator interrupts it, [download_alarm] leaves with status 1
    and no file is at the destination any more, whatever curl had written
    there: what reaches the rest of the pipeline is never a partial
    archive. *)
Theorem failed_transfer_leaves_no_archive w output_file mirror disk r st :
  download_alarm w output_file mirror (start disk) = (r, st) ->
  existsb is_curl (trace st) = true ->
  (completion (spawn w (curl_argv output_file mirror)) = Interrupted \/
   exists status,
     completion (spawn w (curl_argv output_file mirror)) = Exited status /\
     status <> 0) ->
  r = SysExit 1 /\ exit_status r <> 0 /\ fs st !! output_file = None.
Proof.
  intros E Hcurl Hfail. revert E Hcurl.
  unfold download_alarm, getitem. rewrite tsinghua_registered.
  unfold curl_argv, url_of in Hfail.
  exec. crunch.
  all: intros [= <- <-]; simpl; rewrite ?existsb_app; simpl;
    try discriminate; intros _.
  all: zero_status;
    destruct Hfail as [Hfail | (status' & Hfail & Hstatus)];
    try (exfalso; congruence).
  all: repeat split; try discriminate;
    solve [apply lookup_delete_eq | assumption].
Qed.

Lemma failed_transfer_leaves_no_archive_witness :
  existsb is_curl
    (trace (snd (download_alarm (sample_world (failing_tool 22 "") None)
                   "downloads/archive.tar.gz" "tsinghua" (start ∅)))) = true /\
  fs (snd (download_alarm (sample_world (failing_tool 22 "") None)
             "downloads/archive.tar.gz" "tsinghua" (start ∅)))
  !! "downloads/archive.tar.gz" = None.
Proof.
  split; [reflexivity |].
  apply (failed_transfer_leaves_no_archive
           (sample_world (failing_tool 22 "") None)
           "downloads/archive.tar.gz" "tsinghua" ∅
           (fst (download_alarm (sample_world (failing_tool 22 "") None)
                   "downloads/archive.tar.gz" "tsinghua" (start ∅)))).
  - now destruct (download_alarm _ _ _ _).
  - reflexivity.
  - right. exists 22. split; [reflexivity | discriminate].
Defined.

(** ** Unknown mirrors *)

(** C4, as stated, fails: for an identifier that the registry does not
    hold, [download_alarm] does not fail; it fetches from the tsinghua
    address and returns. *)
Lemma unknown_mirror_is_fetched_from_tsinghua :
  MIRRORS !! "bogus" = None /\
  download_alarm (sample_world working_tools None)
    "downloads/archive.tar.gz" "bogus" (start ∅)
  = (Return tt,
     {| fs := {[ "downloads/archive.tar.gz" := "archive" ]};
        trace :=
          [Log INFO (downloading "https://mirrors.tuna.tsinghua.edu.cn/archlinuxarm/os/ArchLinuxARM-aarch64-latest.tar.gz");
           Statvfs "downloads";
           Run ["curl"; "-#"; "-o"; "downloads/archive.tar.gz";
                "https://mirrors.tuna.tsinghua.edu.cn/archlinuxarm/os/ArchLinuxARM-aarch64-latest.tar.gz"]
               None;
           Log INFO download_done] |}).
Proof. split; vm_compute; reflexivity. Qed.

(** C4, amended.  For a mirror identifier that the registry does not
    hold, [download_alarm] takes the address of the tsinghua mirror and
    goes on exactly as it does for "tsinghua".  (The command line only
    lets "official" and "tsinghua" through, so [main] never passes
    another one.) *)
Theorem unknown_mirror_falls_back w output_file mirror st :
  MIRRORS !! mirror = None ->
  url_of mirror = url_of "tsinghua" /\
  download_alarm w output_file mirror st
  = download_alarm w output_file "tsinghua" st /\
  forall choice, MIRRORS !! mirror_name choice <> None.
Proof.
  intros H. split; [| split].
  - unfold url_of. now rewrite H.
  - unfold download_alarm. now rewrite H.
  - intros []; discriminate.
Qed.

Lemma unknown_mirror_falls_back_witness :
  MIRRORS !! "bogus" = None /\ url_of "bogus" = url_of "tsinghua".
Proof.
  split; [reflexivity |].
  apply (unknown_mirror_falls_back (sample_world working_tools None)
           "downloads/archive.tar.gz" "bogus" (start ∅)).
  reflexivity.
Defined.

(** ** Failures of the partitioning *)

Lemma quiet_prefix (p : Event -> bool) logs tail :
  p (Log INFO banner) = false -> p (Log INFO step_tools) = false ->
  (forall ev, is_log ev = true -> p ev = false) ->
  forallb is_log logs = true ->
  existsb p tail = false ->
  existsb p ([Log INFO banner; Log INFO step_tools] ++ logs ++ tail) = false.
Proof.
  intros Hb Ht Hp Hlogs Htail. simpl.
  now rewrite Hb, Ht, existsb_app, (existsb_logs p logs Hp Hlogs), Htail.
Qed.

Ltac quiet_side :=
  first [reflexivity | assumption | apply log_events].
Ltac quiet := apply quiet_prefix; quiet_side.

Lemma create_image_partitioning_failure w output_file size d t r st status :
  create_image w output_file size {| fs := d; trace := t |} = (r, st) ->
  existsb is_gdisk t = false ->
  existsb is_gdisk (trace st) = true ->
  completion (spawn w (gdisk_argv output_file)) = Exited status ->
  status <> 0 ->
  exit_status r <> 0 /\
  fs st = effect (spawn w (gdisk_argv output_file))
            (effect (spawn w (qemu_img_argv output_file size)) d) /\
  (existsb is_remove t = false -> existsb is_remove (trace st) = false).
Proof.
  intros E Ht Hreached Hg Hstatus. revert E Hreached.
  unfold gdisk_argv, qemu_img_argv in *.
  unfold create_image. exec. rewrite Hg. crunch.
  all: intros [= <- <-]; simpl; rewrite ?existsb_app, ?Ht; simpl;
    try discriminate; intros _.
  all: zero_status; try contradiction.
  all: repeat split; try discriminate; intros ->; reflexivity.
Qed.

(** C6. In every run in which gdisk is started and ends with a status
    other than 0, the script removes nothing: the run ends with a status
    other than 0 and with the file system exactly as qemu-img and then
    gdisk left it.  The image that qemu-img created is therefore still
    there, unless gdisk itself unlinked it. *)
Theorem failed_partitioning_keeps_image w args disk status :
  existsb is_gdisk (trace_of (run w args disk)) = true ->
  completion (spawn w (gdisk_argv (arg_output args))) = Exited status ->
  status <> 0 ->
  (forall d, is_Some (effect (spawn w (qemu_img_argv (arg_output args) (arg_size args))) d
                      !! arg_output args)) ->
  (forall d, is_Some (d !! arg_output args) ->
             is_Some (effect (spawn w (gdisk_argv (arg_output args))) d
                      !! arg_output args)) ->
  status_of (run w args disk) <> 0 /\
  existsb is_remove (trace_of (run w args disk)) = false /\
  disk_of (run w args disk)
  = effect (spawn w (gdisk_argv (arg_output args)))
      (effect (spawn w (qemu_img_argv (arg_output args) (arg_size args))) disk) /\
  is_Some (disk_of (run w args disk) !! arg_output args).
Proof.
  intros Hreached Hg Hstatus Hqemu Hgdisk. revert Hreached.
  unfold status_of, disk_of, trace_of.
  destruct (main_stages w args disk) as (logs & r & Hlogs & [-> | ->] & ->).
  - destruct (disk !! tar_file) as [c|].
    + destruct (create_image _ _ _ _) as [r st] eqn:E. simpl. intros Hreached.
      destruct (create_image_partitioning_failure _ _ _ _ _ _ _ _
                  E ltac:(quiet) Hreached Hg Hstatus) as (Hexit & Hfs & Hremove).
      split; [assumption |].
      split; [apply Hremove; quiet |].
      split; [assumption |].
      rewrite Hfs. apply Hgdisk, Hqemu.
    + cbn [fst snd trace]. rewrite quiet_prefix; [discriminate | quiet_side ..].
  - simpl. rewrite (existsb_logs is_gdisk logs); [discriminate | apply log_events | assumption].
Qed.

Lemma failed_partitioning_keeps_image_witness :
  existsb is_gdisk
    (trace_of (run (sample_world gdisk_fails None) (sample_args "128G" false)
                   archive_only)) = true /\
  disk_of (run (sample_world gdisk_fails None) (sample_args "128G" false)
               archive_only) !! DEFAULT_OUTPUT_FILE = Some "empty image".
Proof.
  split; [reflexivity |].
  destruct (failed_partitioning_keeps_image
              (sample_world gdisk_fails None) (sample_args "128G" false)
              archive_only 2) as (_ & _ & -> & _).
  - reflexivity.
  - reflexivity.
  - discriminate.
  - intros d. simpl. rewrite lookup_insert_eq. eauto.
  - intros d H. exact H.
  - reflexivity.
Defined.

(** ** Failures of the allocation *)

(** When qemu-img fails with a diagnostic that decodes, or is interrupted,
    the handlers of [create_image] unlink the output and leave with
    status 1. *)
Lemma allocation_failure_cleans_up w output_file size d t r st :
  create_image w output_file size {| fs := d; trace := t |} = (r, st) ->
  existsb is_qemu_img t = false ->
  existsb is_qemu_img (trace st) = true ->
  (completion (spawn w (qemu_img_argv output_file size)) = Interrupted \/
   exists status,
     completion (spawn w (qemu_img_argv output_file size)) = Exited status /\
     status <> 0 /\
     Py.utf8_valid (captured_stderr (spawn w (qemu_img_argv output_file size))) = true) ->
  r = SysExit 1 /\ fs st !! output_file = None.
Proof.
  intros E Ht Hreached Hfail. revert E Hreached.
  unfold qemu_img_argv in *. unfold create_image. exec. crunch.
  all: intros [= <- <-]; simpl; rewrite ?existsb_app, ?Ht; simpl;
    try discriminate; intros _.
  all: zero_status;
    destruct Hfail as [Hfail | (status' & Hfail & Hstatus & Hvalid)];
    try (exfalso; congruence).
  all: split; [reflexivity |]; solve [apply lookup_delete_eq | assumption].
Qed.

(** C5, on the input where the script misses it: qemu-img fails after
    leaving a file, and its diagnostic is not UTF-8.  Decoding the
    diagnostic for the error message raises inside the handler, before the
    clean-up: the run ends on [UnicodeDecodeError] with the partial image
    still in place and nothing removed. *)
Theorem undecodable_diagnostic_skips_cleanup :
  completion (failing_tool 1 not_utf8 (qemu_img_argv DEFAULT_OUTPUT_FILE "128G"))
  = Exited 1 /\
  fst (run (sample_world (failing_tool 1 not_utf8) None) (sample_args "128G" false)
           archive_only) = Raise UnicodeDecodeError /\
  disk_of (run (sample_world (failing_tool 1 not_utf8) None) (sample_args "128G" false)
               archive_only) !! DEFAULT_OUTPUT_FILE = Some "partial image" /\
  existsb is_remove
    (trace_of (run (sample_world (failing_tool 1 not_utf8) None)
                   (sample_args "128G" false) archive_only)) = false.
Proof. repeat split; vm_compute; reflexivity. Qed.

(** ** The force flag *)

(** [main] never reads the flag. *)
Lemma force_is_ignored w output size mirror convert forced disk :
  run w {| arg_output := output; arg_size := size; arg_mirror := mirror;
           arg_convert_to := convert; arg_force := forced |} disk
  = run w {| arg_output := output; arg_size := size; arg_mirror := mirror;
             arg_convert_to := convert; arg_force := negb forced |} disk.
Proof. reflexivity. Qed.

(** C3, on the input where the script misses it: the output exists and
    the force flag is given.  The script asks all the same; with the
    answer "n" it leaves with status 0, no tool started and the file system
    as it was. *)
Theorem forced_run_still_asks :
  arg_force (sample_args "128G" true) = true /\
  existsb is_prompt
    (trace_of (run (sample_world working_tools (Some "n")) (sample_args "128G" true)
                   archive_and_image)) = true /\
  fst (run (sample_world working_tools (Some "n")) (sample_args "128G" true)
           archive_and_image) = SysExit 0 /\
  existsb is_run
    (trace_of (run (sample_world working_tools (Some "n")) (sample_args "128G" true)
                   archive_and_image)) = false /\
  disk_of (run (sample_world working_tools (Some "n")) (sample_args "128G" true)
               archive_and_image) = archive_and_image.
Proof. repeat split; vm_compute; reflexivity. Qed.

(** ** The partitioning script *)

Lemma existsb_false_In {A} (p : A -> bool) l x :
  existsb p l = false -> In x l -> p x = false.
Proof.
  induction l as [|y l IH]; simpl; [contradiction |].
  intros [Hy Hl]%orb_false_iff [-> | Hx]; auto.
Qed.

(** Whenever [create_image] starts gdisk, it is on the output file and
    with the one script. *)
Lemma partitioning_input_is_fixed w output_file size d t ev :
  existsb is_gdisk t = false ->
  In ev (trace (snd (create_image w output_file size {| fs := d; trace := t |}))) ->
  is_gdisk ev = true ->
  ev = Run (gdisk_argv output_file) (Some gdisk_script).
Proof.
  intros Ht. unfold create_image. exec. crunch.
  all: simpl; rewrite <- ?app_assoc; simpl; intros Hin Hev.
  all: apply in_app_or in Hin as [Hin | Hin];
    [rewrite (existsb_false_In _ _ _ Ht Hin) in Hev; discriminate |].
  all: simpl in Hin;
    repeat match goal with
           | H : _ \/ _ |- _ => destruct H as [<- | H]; try discriminate
           | H : False |- _ => destruct H
           end.
  all: reflexivity.
Qed.

(** The script, line by line. *)
Lemma gdisk_script_lines :
  Gdisk.lines gdisk_script
  = ["o"; "n"; ""; ""; "+300M"; "ef00"; "n"; ""; ""; ""; ""; "w"; "y"]%string.
Proof. reflexivity. Qed.

(** Read without a confirmation after [o], the script is the sequence of
    the specification. *)
Lemma gdisk_script_as_meant :
  Gdisk.replay false gdisk_script
  = [Gdisk.new_table;
     Gdisk.new_partition "" "" "+300M" "ef00";
     Gdisk.new_partition "" "" "" "";
     Gdisk.write_table].
Proof. reflexivity. Qed.

(** C7, on a run that reaches the partitioning: gdisk is given the one
    script, and gdisk asks for a confirmation after [o].  The [n] that was
    meant to open the first partition answers that question with no, the
    size and the type code of the boot partition arrive at the menu, where
    they are no commands, and the one partition that is created takes every
    default; then the table is written.  No partition of 300M and type
    ef00 is asked for. *)
Theorem gdisk_reads_the_script_otherwise :
  In (Run (gdisk_argv DEFAULT_OUTPUT_FILE) (Some gdisk_script))
     (trace_of (run (sample_world working_tools None) (sample_args "128G" false)
                    archive_only)) /\
  Gdisk.replay true gdisk_script
  = [Gdisk.table_kept;
     Gdisk.help "+300M";
     Gdisk.help "ef00";
     Gdisk.new_partition "" "" "" "";
     Gdisk.write_table] /\
  ~ In (Gdisk.new_partition "" "" "+300M" "ef00") (Gdisk.replay true gdisk_script).
Proof.
  split; [| split].
  - vm_compute. tauto.
  - reflexivity.
  - vm_compute. intuition discriminate.
Qed.

(** * Further properties of the script *)

(** ** The dependency check *)

Lemma filter_nil_forallb {A} (f : A -> bool) l :
  List.filter f l = [] <-> forallb (fun x => negb (f x)) l = true.
Proof.
  induction l as [|x l IH]; simpl; [tauto |].
  destruct (f x); simpl; [split; discriminate | exact IH].
Qed.

Lemma nothing_missing w table :
  map fst table = required_tools ->
  missing_from w table = [] <-> forallb (which w) required_tools = true.
Proof.
  intros <-. unfold missing_from. rewrite filter_nil_forallb.
  induction table as [|entry table IH]; simpl; [tauto |].
  rewrite negb_involutive, !andb_true_iff, IH. tauto.
Qed.

(** What [detect_platform] answers, by cases of [recognised]. *)
Lemma detect_platform_cases w d t :
  (recognised w d = true /\
   exists found, In found platforms /\
     detect_platform w {| fs := d; trace := t |}
     = (Return found, {| fs := d; trace := t |})) \/
  (recognised w d = false /\
   detect_platform w {| fs := d; trace := t |}
   = (SysExit 1,
      {| fs := d;
         trace := t ++ [Log ERROR (match d !! "/etc/os-release" with
                                   | Some _ => unsupported_os
                                   | None => unknown_distribution
                                   end)] |})).
Proof.
  unfold recognised, detect_platform, platforms.
  destruct (String.eqb (platform w) "darwin"); simpl orb.
  - left. split; [reflexivity |]. eexists. split; [| reflexivity]. simpl; auto.
  - exec. destruct (d !! "/etc/os-release") as [text|]; [| right; auto].
    destruct (Py.contains "debian" (Py.lower text) || Py.contains "ubuntu" (Py.lower text))
      eqn:Hdeb; simpl.
    { left. split; [reflexivity |]. eexists. split; [| reflexivity]. simpl; auto. }
    destruct (Py.contains "arch" (Py.lower text) || Py.contains "manjaro" (Py.lower text))
      eqn:Harch.
    { left. split; [reflexivity |].
      eexists. split; [| reflexivity]. simpl; auto. }
    right. auto.
Qed.

Lemma platform_tables found :
  In found platforms -> map fst (snd found) = required_tools.
Proof. intros [<- | [<- | [<- | []]]]; reflexivity. Qed.

(** The check in one equation, once the platform is known. *)
Lemma check_dependencies_on w d t found :
  detect_platform w {| fs := d; trace := t |}
  = (Return found, {| fs := d; trace := t |}) ->
  check_dependencies w {| fs := d; trace := t |}
  = match missing_from w (snd found) with
    | [] => (Return tt, {| fs := d; trace := t |})
    | missing =>
        (SysExit 1,
         {| fs := d;
            trace := t ++ Log ERROR (missing_tools (fst found))
                       :: missing_report missing ++ [Log INFO install_first] |})
    end.
Proof.
  intros H. unfold check_dependencies, missing_from, missing_report. unbind.
  rewrite H. destruct (List.filter _ (snd found)) as [|entry missing]; [reflexivity |].
  rewrite logging_eq. cbv beta iota.
  rewrite (for_each_logging (entry :: missing)
             (fun entry => missing_tool (fst entry) (snd entry))).
  cbv beta iota. rewrite logging_eq. cbv beta iota delta [sys_exit].
  do 2 f_equal. rewrite <- !app_assoc. reflexivity.
Qed.

Lemma check_dependencies_passes w d t :
  fst (check_dependencies w {| fs := d; trace := t |}) = Return tt <->
  recognised w d = true /\ forallb (which w) required_tools = true.
Proof.
  destruct (detect_platform_cases w d t)
    as [(Hrec & found & Hin & Hdetect) | (Hrec & Hdetect)].
  - rewrite (check_dependencies_on _ _ _ _ Hdetect), Hrec.
    rewrite <- (nothing_missing w (snd found) (platform_tables _ Hin)).
    destruct (missing_from w (snd found)); simpl; split; intuition discriminate.
  - unfold check_dependencies. unbind. rewrite Hdetect, Hrec. simpl.
    split; [discriminate | intros [? _]; discriminate].
Qed.




(** X3. On a platform that is not recognised, [check_dependencies] leaves
    with status 1 after a single message, whatever is installed: one message
    when [/etc/os-release] cannot be opened, another when it names none of
    the four distributions. *)
Theorem unrecognised_platform_exits w d t :
  recognised w d = false ->
  check_dependencies w {| fs := d; trace := t |}
  = (SysExit 1,
     {| fs := d;
        trace := t ++ [Log ERROR (match d !! "/etc/os-release" with
                                  | Some _ => unsupported_os
                                  | None => unknown_distribution
                                  end)] |}).
Proof.
  intros Hrec.
  destruct (detect_platform_cases w d t)
    as [(Hyes & _) | (_ & Hdetect)]; [congruence |].
  unfold check_dependencies. unbind. now rewrite Hdetect.
Qed.

Lemma unrecognised_platform_exits_witness :
  recognised linux_machine fedora_release = false /\
  check_dependencies linux_machine {| fs := fedora_release; trace := [] |}
  = (SysExit 1, {| fs := fedora_release; trace := [Log ERROR unsupported_os] |}).
Proof.
  split; [reflexivity |].
  exact (unrecognised_platform_exits linux_machine fedora_release [] eq_refl).
Defined.

(** ** The download stage, past the directory *)

#[local] Arguments Z.pow : simpl never.

Ltac past_statvfs mirror Hdir Hne Hstat :=
  unfold download_alarm, getitem; rewrite tsinghua_registered, Hdir;
  fold (url_of mirror); exec;
  match goal with
  | |- context [match ?dir with EmptyString => _ | String _ _ => _ end] =>
      destruct dir; [contradiction |]
  end;
  rewrite Hstat; simpl.

(** X4. With less than two GiB free in the directory of the destination,
    [download_alarm] leaves with status 1 right after the measurement:
    curl is not started and the file system is as it was. *)
Theorem insufficient_space_stops_download
    w output_file mirror d t dir frsize bavail :
  Os.dirname output_file = dir -> dir <> "" ->
  statvfs w dir = Some (frsize, bavail) ->
  frsize * bavail < REQUIRED_SPACE_GB * 1024 ^ 3 ->
  download_alarm w output_file mirror {| fs := d; trace := t |}
  = (SysExit 1,
     {| fs := d;
        trace := t ++ [Log INFO (downloading (url_of mirror)); Statvfs dir;
                       Log ERROR (insufficient_space REQUIRED_SPACE_GB)] |}).
Proof.
  intros Hdir Hne Hstat Hless. past_statvfs mirror Hdir Hne Hstat.
  apply Z.ltb_lt in Hless. rewrite Hless. simpl.
  rewrite <- !app_assoc. reflexivity.
Qed.

Lemma insufficient_space_stops_download_witness :
  Os.dirname "downloads/archive.tar.gz" = "downloads" /\
  fst (download_alarm
         {| platform := "darwin"; which := fun _ => true;
            statvfs := fun _ => Some (4096, 524287);
            spawn := working_tools; stdin_line := None; max_str_digits := 4300 |}
         "downloads/archive.tar.gz" "official" {| fs := ∅; trace := [] |})
  = SysExit 1.
Proof.
  split; [reflexivity |].
  rewrite (insufficient_space_stops_download _ "downloads/archive.tar.gz" "official"
             ∅ [] "downloads" 4096 524287);
    [reflexivity | reflexivity | discriminate | reflexivity | reflexivity].
Defined.

(** X5. With two GiB or more free, exactly two GiB included, curl is
    started as [curl -# -o destination url]; when it ends with status 0
    the stage returns, the file system being what curl made of it, and
    nothing is removed. *)
Theorem completed_download w output_file mirror d t dir frsize bavail :
  Os.dirname output_file = dir -> dir <> "" ->
  statvfs w dir = Some (frsize, bavail) ->
  REQUIRED_SPACE_GB * 1024 ^ 3 <= frsize * bavail ->
  completion (spawn w (curl_argv output_file mirror)) = Exited 0 ->
  download_alarm w output_file mirror {| fs := d; trace := t |}
  = (Return tt,
     {| fs := effect (spawn w (curl_argv output_file mirror)) d;
        trace := t ++ [Log INFO (downloading (url_of mirror)); Statvfs dir;
                       Run ["curl"; "-#"; "-o"; output_file; url_of mirror] None;
                       Log INFO download_done] |}).
Proof.
  intros Hdir Hne Hstat Hspace Hcurl. unfold curl_argv in *.
  past_statvfs mirror Hdir Hne Hstat.
  apply Z.ltb_ge in Hspace. rewrite Hspace. simpl.
  unfold url_of in Hcurl. rewrite Hcurl. simpl.
  rewrite <- !app_assoc. reflexivity.
Qed.

Lemma completed_download_witness :
  REQUIRED_SPACE_GB * 1024 ^ 3 <= 4096 * 524288 /\
  fs (snd (download_alarm
             {| platform := "darwin"; which := fun _ => true;
                statvfs := fun _ => Some (4096, 524288);
                spawn := working_tools; stdin_line := None; max_str_digits := 4300 |}
             "downloads/archive.tar.gz" "official" {| fs := ∅; trace := [] |}))
  !! "downloads/archive.tar.gz" = Some "archive".
Proof.
  split; [vm_compute; discriminate |].
  rewrite (completed_download _ "downloads/archive.tar.gz" "official"
             ∅ [] "downloads" 4096 524288);
    [reflexivity | reflexivity | discriminate | reflexivity
    | vm_compute; discriminate | reflexivity].
Defined.

(** X6. When curl cannot be started, which the dependency check does not
    rule out, [download_alarm] ends on [FileNotFoundError]: neither handler
    takes it, and the file system is as it was. *)
Theorem missing_curl_is_not_handled w output_file mirror d t dir frsize bavail :
  Os.dirname output_file = dir -> dir <> "" ->
  statvfs w dir = Some (frsize, bavail) ->
  REQUIRED_SPACE_GB * 1024 ^ 3 <= frsize * bavail ->
  completion (spawn w (curl_argv output_file mirror)) = NotStarted ->
  download_alarm w output_file mirror {| fs := d; trace := t |}
  = (Raise FileNotFoundError,
     {| fs := d;
        trace := t ++ [Log INFO (downloading (url_of mirror)); Statvfs dir;
                       Run ["curl"; "-#"; "-o"; output_file; url_of mirror] None] |}).
Proof.
  intros Hdir Hne Hstat Hspace Hcurl. unfold curl_argv in *.
  past_statvfs mirror Hdir Hne Hstat.
  apply Z.ltb_ge in Hspace. rewrite Hspace. simpl.
  unfold url_of in Hcurl. rewrite Hcurl. simpl.
  rewrite <- !app_assoc. reflexivity.
Qed.

Lemma missing_curl_is_not_handled_witness :
  completion (spawn (sample_world
                       (fun _ => {| completion := NotStarted; captured_stderr := "";
                                    effect := fun d => d |}) None)
                (curl_argv "downloads/archive.tar.gz" "tsinghua")) = NotStarted /\
  fst (download_alarm
         (sample_world
            (fun _ => {| completion := NotStarted; captured_stderr := "";
                         effect := fun d => d |}) None)
         "downloads/archive.tar.gz" "tsinghua" {| fs := ∅; trace := [] |})
  = Raise FileNotFoundError.
Proof.
  split; [reflexivity |].
  rewrite (missing_curl_is_not_handled _ "downloads/archive.tar.gz" "tsinghua"
             ∅ [] "downloads" 4096 1048576);
    [reflexivity | reflexivity | discriminate | reflexivity
    | vm_compute; discriminate | reflexivity].
Defined.

(** ** The directory of a path *)

Lemma has_sep_app x y : Os.has_sep (x ++ y)%string = Os.has_sep x || Os.has_sep y.
Proof.
  induction x as [|c x IH]; norm_app; simpl; [reflexivity |].
  now rewrite IH, orb_assoc.
Qed.

Lemma head_join x base :
  Os.has_sep base = false ->
  Os.head_to_last_sep (x ++ "/" ++ base)%string = (x ++ "/")%string.
Proof.
  intros Hbase. induction x as [|c x IH]; norm_app; simpl.
  - now rewrite Hbase, (head_bare _ Hbase).
  - rewrite IH, has_sep_app. norm_app. simpl. now rewrite orb_true_r.
Qed.

Lemma rstrip_snoc sp x c :
  sp c = true ->
  Py.rstrip_with sp (x ++ String c "")%string = Py.rstrip_with sp x.
Proof.
  intros Hc. induction x as [|a x IH]; norm_app; simpl.
  - now rewrite Hc.
  - now rewrite IH.
Qed.

Lemma rstrip_keeps sp x c :
  Py.last x = Some c -> sp c = false -> Py.rstrip_with sp x = x.
Proof.
  intros Hlast Hc. induction x as [|a x IH]; [discriminate |].
  destruct x as [|b x].
  - injection Hlast as ->. simpl. now rewrite Hc.
  - change (Py.rstrip_with sp (String a (String b x)))
      with (match Py.rstrip_with sp (String b x) with
            | EmptyString => if sp a then EmptyString else String a EmptyString
            | r' => String a r'
            end).
    now rewrite (IH Hlast).
Qed.

Lemma rstrip_empty sp x : Py.rstrip_with sp x = "" -> forallb sp (chars x) = true.
Proof.
  induction x as [|a x IH]; simpl; [reflexivity |].
  destruct (Py.rstrip_with sp x); [| discriminate].
  destruct (sp a); [auto | discriminate].
Qed.

Lemma all_sep_chars x : Os.all_sep x = forallb Os.is_sep (chars x).
Proof. induction x as [|a x IH]; simpl; [reflexivity | now rewrite IH]. Qed.

Lemma all_sep_last x y c :
  Py.last x = Some c -> Os.is_sep c = false -> Os.all_sep (x ++ y)%string = false.
Proof.
  intros Hlast Hc. induction x as [|a x IH]; [discriminate |].
  norm_app. simpl. destruct x as [|b x].
  - injection Hlast as ->. now rewrite Hc.
  - rewrite (IH Hlast). apply andb_false_r.
Qed.

(** X7. The directory handed to [os.statvfs] is empty exactly when the
    destination contains no slash; so [download_alarm] gets past
    [os.statvfs("")] only for destinations written with a directory. *)
Theorem dirname_empty_iff p : Os.dirname p = "" <-> Os.has_sep p = false.
Proof.
  split; [| apply dirname_bare].
  intros H. destruct (Os.has_sep p) eqn:Hsep; [exfalso | reflexivity].
  unfold Os.dirname in H.
  assert (Os.head_to_last_sep p <> "") as Hhead.
  { destruct p as [|c r]; [discriminate |]. simpl in *.
    rewrite orb_comm in Hsep. now rewrite Hsep. }
  destruct (Os.head_to_last_sep p) as [|a h] eqn:E; [congruence |].
  destruct (Os.all_sep (String a h)) eqn:Hall; [discriminate |].
  apply rstrip_empty in H. rewrite <- all_sep_chars in H. congruence.
Qed.

(** The directory of [dir/base]. *)
Lemma dirname_join dir base c :
  Py.last dir = Some c -> Os.is_sep c = false -> Os.has_sep base = false ->
  Os.dirname (dir ++ "/" ++ base)%string = dir.
Proof.
  intros Hlast Hc Hbase. unfold Os.dirname. rewrite (head_join _ _ Hbase).
  destruct (dir ++ "/")%string as [|a h] eqn:E.
  - destruct dir; discriminate.
  - rewrite <- E, (all_sep_last dir "/" c Hlast Hc).
    rewrite (rstrip_snoc Os.is_sep dir "/" eq_refl).
    now apply rstrip_keeps with c.
Qed.

(** X8. For a destination [dir/base], where [dir] does not end in a slash
    and [base] holds none, the free space [download_alarm] measures is that
    of [dir]: the measurement is the second event of the stage, right after
    its first message, whatever happens next. *)
Theorem free_space_is_measured_in_the_destination_directory
    w dir base mirror d t c :
  Py.last dir = Some c -> Os.is_sep c = false -> Os.has_sep base = false ->
  exists rest,
    trace (snd (download_alarm w (dir ++ "/" ++ base)%string mirror
                  {| fs := d; trace := t |}))
    = t ++ [Log INFO (downloading (url_of mirror)); Statvfs dir] ++ rest.
Proof.
  intros Hlast Hc Hbase.
  unfold download_alarm, getitem.
  rewrite tsinghua_registered, (dirname_join _ _ _ Hlast Hc Hbase).
  fold (url_of mirror). exec. crunch.
  all: simpl; rewrite <- ?app_assoc; simpl; eexists; reflexivity.
Qed.

Lemma free_space_is_measured_in_the_destination_directory_witness :
  Py.last "/var/tmp" = Some "p"%char /\
  exists rest,
    trace (snd (download_alarm (sample_world working_tools None)
                  "/var/tmp/archive.tar.gz" "tsinghua" {| fs := ∅; trace := [] |}))
    = [] ++ [Log INFO (downloading (url_of "tsinghua")); Statvfs "/var/tmp"] ++ rest.
Proof.
  split; [reflexivity |].
  exact (free_space_is_measured_in_the_destination_directory
           (sample_world working_tools None) "/var/tmp" "archive.tar.gz" "tsinghua"
           ∅ [] "p" eq_refl eq_refl eq_refl).
Defined.

(** ** The image stage, path by path *)

Ltac prove_conditions :=
  zero_status; subst; repeat split;
  try discriminate; try reflexivity; try assumption;
  try (first [ left; reflexivity
             | right; eexists; split;
               [reflexivity | unfold confirms; now apply negb_false_iff] ]).

Ltac refute_conditions :=
  let Hp := fresh in let Hover := fresh in
  let Hq := fresh in let Hvq := fresh in
  let Hg := fresh in let Hvg := fresh in
  intros (Hp & Hover & [Hq Hvq] & [Hg Hvg]);
  try reflexivity; exfalso; zero_status;
  try congruence;
  destruct Hover as [Hover | (answer & Hover & Hconf)];
  try discriminate;
  injection Hover as <-; unfold confirms in Hconf;
  match goal with
  | H : negb _ = true |- _ => rewrite Hconf in H; discriminate
  end.

(** [create_image] returns exactly on the path where everything goes
    well, and the file system is then what the two tools made of it. *)
Lemma create_image_returns_iff w output_file size d t :
  (fst (create_image w output_file size {| fs := d; trace := t |}) = Return tt <->
   parse_size w size <> None /\ may_overwrite w d output_file /\
   allocation_ok w output_file size /\ partitioning_ok w output_file) /\
  (fst (create_image w output_file size {| fs := d; trace := t |}) = Return tt ->
   fs (snd (create_image w output_file size {| fs := d; trace := t |}))
   = effect (spawn w (gdisk_argv output_file))
       (effect (spawn w (qemu_img_argv output_file size)) d)).
Proof.
  unfold allocation_ok, partitioning_ok, may_overwrite, gdisk_argv, qemu_img_argv.
  unfold create_image. exec. crunch.
  all: simpl; split;
    [split; [intros H; try discriminate H; prove_conditions | refute_conditions]
    | intros H; try discriminate H; reflexivity].
Qed.

(** X9. When the output exists and the operator's answer, an ASCII text,
    stripped and lower-cased is anything but "y" ("yes" included),
    [create_image] leaves with status 0 right after the prompt: no tool is
    started and the file system is as it was. *)
Theorem declined_overwrite_cancels w output_file size d t p c answer :
  parse_size w size = Some p ->
  d !! output_file = Some c ->
  stdin_line w = Some answer ->
  Py.isascii answer = true ->
  confirms answer = false ->
  create_image w output_file size {| fs := d; trace := t |}
  = (SysExit 0,
     {| fs := d;
        trace := t ++ [Log INFO (creating_image size);
                       Log WARNING (output_exists output_file);
                       Prompt; Log INFO cancelled] |}).
Proof.
  intros Hp Hd Hanswer _ Hno. unfold confirms in Hno.
  unfold create_image. rewrite Hp. exec. rewrite Hd, Hanswer. simpl.
  rewrite Hno. simpl. rewrite <- !app_assoc. reflexivity.
Qed.

Lemma declined_overwrite_cancels_witness :
  Py.isascii "yes" = true /\ confirms "yes" = false /\
  fst (create_image (answering "yes") DEFAULT_OUTPUT_FILE "128G"
         {| fs := archive_and_image; trace := [] |}) = SysExit 0.
Proof.
  split; [reflexivity |]. split; [reflexivity |].
  rewrite (declined_overwrite_cancels (answering "yes") DEFAULT_OUTPUT_FILE "128G"
             archive_and_image [] (128, "G"%char) "old image" "yes");
    reflexivity.
Defined.

(** X10. When the output exists and standard input is at its end, the
    prompt raises [EOFError], which nothing catches: the run ends there,
    no tool started, the file system as it was. *)
Theorem prompt_at_end_of_input_raises w output_file size d t p c :
  parse_size w size = Some p ->
  d !! output_file = Some c ->
  stdin_line w = None ->
  create_image w output_file size {| fs := d; trace := t |}
  = (Raise EOFError,
     {| fs := d;
        trace := t ++ [Log INFO (creating_image size);
                       Log WARNING (output_exists output_file); Prompt] |}).
Proof.
  intros Hp Hd Hanswer.
  unfold create_image. rewrite Hp. exec. rewrite Hd, Hanswer. simpl.
  rewrite <- !app_assoc. reflexivity.
Qed.

Lemma prompt_at_end_of_input_raises_witness :
  stdin_line (sample_world working_tools None) = None /\
  fst (create_image (sample_world working_tools None) DEFAULT_OUTPUT_FILE "128G"
         {| fs := archive_and_image; trace := [] |}) = Raise EOFError.
Proof.
  split; [reflexivity |].
  rewrite (prompt_at_end_of_input_raises (sample_world working_tools None)
             DEFAULT_OUTPUT_FILE "128G" archive_and_image []
             (128, "G"%char) "old image");
    reflexivity.
Defined.

(** X11. For an ASCII size, [create_image] asks the operator exactly when
    the size passes the check and a file is at the output path; and it
    never asks twice. *)
Theorem prompt_iff_output_exists w output_file size d t :
  Py.isascii size = true ->
  existsb is_prompt t = false ->
  (existsb is_prompt
     (trace (snd (create_image w output_file size {| fs := d; trace := t |}))) = true
   <-> parse_size w size <> None /\ is_Some (d !! output_file)) /\
  (length (List.filter is_prompt
             (trace (snd (create_image w output_file size {| fs := d; trace := t |}))))
   <= 1)%nat.
Proof.
  intros _ Ht.
  assert (List.filter is_prompt t = []) as Hfilter.
  { clear -Ht. induction t as [|ev t IH]; simpl in *; [reflexivity |].
    apply orb_false_iff in Ht as [Hev Ht]. rewrite Hev. auto. }
  unfold create_image. exec. crunch.
  all: simpl; rewrite ?existsb_app, ?Ht, ?List.filter_app, ?Hfilter; simpl.
  all: split; [| lia].
  all: split; intros H.
  all: try discriminate H; try reflexivity.
  all: try (split; [discriminate | eauto]).
  all: destruct H as [Hsize [x Hx]]; congruence.
Qed.

Lemma prompt_iff_output_exists_witness :
  Py.isascii "128G" = true /\ existsb is_prompt [] = false /\
  existsb is_prompt
    (trace (snd (create_image (answering "n") DEFAULT_OUTPUT_FILE "128G"
                   {| fs := archive_and_image; trace := [] |}))) = true.
Proof.
  split; [reflexivity |]. split; [reflexivity |].
  apply (prompt_iff_output_exists (answering "n") DEFAULT_OUTPUT_FILE "128G"
           archive_and_image [] eq_refl eq_refl).
  split; [discriminate | now exists "old image"].
Defined.

(** X12. For an ASCII size and an ASCII answer of the operator,
    [create_image] returns exactly when the size passes the check, no file
    is in the way or the operator says yes, and qemu-img and gdisk both end
    with status 0 and a diagnostic that decodes; the file system is then
    what qemu-img and after it gdisk made of it. *)
Theorem image_is_made_iff_every_step_succeeds w output_file size d t :
  Py.isascii size = true ->
  (forall answer, stdin_line w = Some answer -> Py.isascii answer = true) ->
  (fst (create_image w output_file size {| fs := d; trace := t |}) = Return tt <->
   parse_size w size <> None /\ may_overwrite w d output_file /\
   allocation_ok w output_file size /\ partitioning_ok w output_file) /\
  (fst (create_image w output_file size {| fs := d; trace := t |}) = Return tt ->
   fs (snd (create_image w output_file size {| fs := d; trace := t |}))
   = effect (spawn w (gdisk_argv output_file))
       (effect (spawn w (qemu_img_argv output_file size)) d)).
Proof. intros _ _. apply create_image_returns_iff. Qed.

Lemma image_is_made_iff_every_step_succeeds_witness :
  Py.isascii "128G" = true /\
  (forall answer, stdin_line (answering " Y ") = Some answer ->
                  Py.isascii answer = true) /\
  fst (create_image (answering " Y ") DEFAULT_OUTPUT_FILE "128G"
         {| fs := archive_and_image; trace := [] |}) = Return tt.
Proof.
  assert (forall answer, stdin_line (answering " Y ") = Some answer ->
                         Py.isascii answer = true) as Hanswer.
  { intros answer [= <-]. reflexivity. }
  split; [reflexivity |]. split; [exact Hanswer |].
  apply (image_is_made_iff_every_step_succeeds (answering " Y ") DEFAULT_OUTPUT_FILE
           "128G" archive_and_image [] eq_refl Hanswer).
  split; [discriminate |].
  split; [right; exists " Y "; split; reflexivity |].
  split; split; reflexivity.
Defined.

(** X13. gdisk is started only after qemu-img has ended with status 0
    and its diagnostic, if any, has decoded; so no partitioning is tried
    on an image whose allocation failed or was interrupted. *)
Theorem partitioning_only_after_allocation w output_file size d t :
  existsb is_gdisk t = false ->
  existsb is_gdisk
    (trace (snd (create_image w output_file size {| fs := d; trace := t |}))) = true ->
  allocation_ok w output_file size /\
  existsb is_qemu_img
    (trace (snd (create_image w output_file size {| fs := d; trace := t |}))) = true.
Proof.
  intros Ht. unfold allocation_ok, qemu_img_argv.
  unfold create_image. exec. crunch.
  all: simpl; rewrite ?existsb_app, ?Ht; simpl; intros H; try discriminate H.
  all: zero_status; subst; repeat split; try assumption; try reflexivity.
  all: rewrite ?orb_true_r; reflexivity.
Qed.

Lemma partitioning_only_after_allocation_witness :
  existsb is_gdisk
    (trace (snd (create_image (sample_world gdisk_fails None) DEFAULT_OUTPUT_FILE "128G"
                   {| fs := archive_only; trace := [] |}))) = true /\
  allocation_ok (sample_world gdisk_fails None) DEFAULT_OUTPUT_FILE "128G".
Proof.
  split; [reflexivity |].
  apply (partitioning_only_after_allocation (sample_world gdisk_fails None)
           DEFAULT_OUTPUT_FILE "128G" archive_only []); reflexivity.
Defined.

(** X14. An interrupt while gdisk runs is not caught, unlike one while
    qemu-img runs: the run ends on [KeyboardInterrupt], the script removes
    nothing, and the file system is what qemu-img and gdisk left. *)
Theorem interrupted_partitioning_is_not_handled w output_file size d t :
  existsb is_gdisk t = false ->
  existsb is_remove t = false ->
  existsb is_gdisk
    (trace (snd (create_image w output_file size {| fs := d; trace := t |}))) = true ->
  completion (spawn w (gdisk_argv output_file)) = Interrupted ->
  fst (create_image w output_file size {| fs := d; trace := t |})
  = Raise KeyboardInterrupt /\
  fs (snd (create_image w output_file size {| fs := d; trace := t |}))
  = effect (spawn w (gdisk_argv output_file))
      (effect (spawn w (qemu_img_argv output_file size)) d) /\
  existsb is_remove
    (trace (snd (create_image w output_file size {| fs := d; trace := t |}))) = false.
Proof.
  intros Ht Hremove Hreached Hg. revert Hreached.
  unfold gdisk_argv, qemu_img_argv in *.
  unfold create_image. exec. rewrite Hg. crunch.
  all: simpl; rewrite ?existsb_app, ?Ht, ?Hremove; simpl;
    intros H; try discriminate H.
  all: repeat split.
Qed.

Lemma interrupted_partitioning_is_not_handled_witness :
  completion (spawn (sample_world gdisk_interrupted None)
                (gdisk_argv DEFAULT_OUTPUT_FILE)) = Interrupted /\
  exit_status
    (fst (create_image (sample_world gdisk_interrupted None) DEFAULT_OUTPUT_FILE
            "128G" {| fs := archive_only; trace := [] |})) = 130.
Proof.
  split; [reflexivity |].
  destruct (interrupted_partitioning_is_not_handled
              (sample_world gdisk_interrupted None) DEFAULT_OUTPUT_FILE "128G"
              archive_only [] eq_refl eq_refl eq_refl eq_refl) as (-> & _).
  reflexivity.
Defined.

(** X15. The only programs [create_image] starts are qemu-img, as
    [qemu-img create -f qcow2 output size] with the size as the operator
    wrote it and no input, and gdisk on the output with the one script. *)
Theorem create_image_commands w output_file size d t ev :
  existsb is_run t = false ->
  In ev (trace (snd (create_image w output_file size {| fs := d; trace := t |}))) ->
  is_run ev = true ->
  ev = Run ["qemu-img"; "create"; "-f"; "qcow2"; output_file; size] None \/
  ev = Run ["gdisk"; output_file] (Some gdisk_script).
Proof.
  intros Ht. unfold create_image. exec. crunch.
  all: simpl; rewrite <- ?app_assoc; simpl; intros Hin Hev.
  all: apply in_app_or in Hin as [Hin | Hin];
    [rewrite (existsb_false_In _ _ _ Ht Hin) in Hev; discriminate |].
  all: simpl in Hin;
    repeat match goal with
           | H : _ \/ _ |- _ => destruct H as [<- | H]; try discriminate
           | H : False |- _ => destruct H
           end.
  all: auto.
Qed.

Lemma create_image_commands_witness :
  In (Run ["qemu-img"; "create"; "-f"; "qcow2"; DEFAULT_OUTPUT_FILE; "1_0 g"] None)
     (trace (snd (create_image (sample_world working_tools None) DEFAULT_OUTPUT_FILE
                    "1_0 g" {| fs := archive_only; trace := [] |}))) /\
  (Run ["qemu-img"; "create"; "-f"; "qcow2"; DEFAULT_OUTPUT_FILE; "1_0 g"] None
   = Run ["qemu-img"; "create"; "-f"; "qcow2"; DEFAULT_OUTPUT_FILE; "1_0 g"] None \/
   Run ["qemu-img"; "create"; "-f"; "qcow2"; DEFAULT_OUTPUT_FILE; "1_0 g"] None
   = Run ["gdisk"; DEFAULT_OUTPUT_FILE] (Some gdisk_script)).
Proof.
  assert (In (Run ["qemu-img"; "create"; "-f"; "qcow2"; DEFAULT_OUTPUT_FILE; "1_0 g"] None)
            (trace (snd (create_image (sample_world working_tools None)
                           DEFAULT_OUTPUT_FILE "1_0 g"
                           {| fs := archive_only; trace := [] |})))) as Hin.
  { vm_compute. tauto. }
  split; [exact Hin |].
  exact (create_image_commands (sample_world working_tools None) DEFAULT_OUTPUT_FILE
           "1_0 g" archive_only [] _ eq_refl Hin eq_refl).
Defined.

(** X16. The only file either stage unlinks is its own output: a
    [Remove] event of [download_alarm] or of [create_image] names the
    [output_file] it was called with. *)
Theorem stages_remove_only_their_output w output_file other d t path :
  existsb is_remove t = false ->
  (In (Remove path)
      (trace (snd (download_alarm w output_file other {| fs := d; trace := t |}))) ->
   path = output_file) /\
  (In (Remove path)
      (trace (snd (create_image w output_file other {| fs := d; trace := t |}))) ->
   path = output_file).
Proof.
  intros Ht. split.
  - unfold download_alarm, getitem. rewrite tsinghua_registered. exec. crunch.
    all: simpl; rewrite <- ?app_assoc; simpl; intros Hin.
    all: apply in_app_or in Hin as [Hin | Hin];
      [pose proof (existsb_false_In _ _ _ Ht Hin) as Hev; discriminate |].
    all: simpl in Hin;
      repeat match goal with
             | H : _ \/ _ |- _ => destruct H as [H | H]; try discriminate
             | H : False |- _ => destruct H
             end.
    all: congruence.
  - unfold create_image. exec. crunch.
    all: simpl; rewrite <- ?app_assoc; simpl; intros Hin.
    all: apply in_app_or in Hin as [Hin | Hin];
      [pose proof (existsb_false_In _ _ _ Ht Hin) as Hev; discriminate |].
    all: simpl in Hin;
      repeat match goal with
             | H : _ \/ _ |- _ => destruct H as [H | H]; try discriminate
             | H : False |- _ => destruct H
             end.
    all: congruence.
Qed.

Lemma stages_remove_only_their_output_witness :
  existsb is_remove [] = false /\
  In (Remove DEFAULT_OUTPUT_FILE)
     (trace (snd (create_image (sample_world (failing_tool 1 "no space") None)
                    DEFAULT_OUTPUT_FILE "128G" {| fs := archive_only; trace := [] |}))).
Proof.
  split; [reflexivity |].
  assert (exists path,
             In (Remove path)
                (trace (snd (create_image (sample_world (failing_tool 1 "no space") None)
                               DEFAULT_OUTPUT_FILE "128G"
                               {| fs := archive_only; trace := [] |})))) as [path Hin].
  { exists DEFAULT_OUTPUT_FILE. vm_compute. tauto. }
  destruct (stages_remove_only_their_output
              (sample_world (failing_tool 1 "no space") None)
              DEFAULT_OUTPUT_FILE "128G" archive_only [] path eq_refl) as [_ H].
  pose proof (H Hin) as E. subst path. exact Hin.
Defined.

(** X25. When qemu-img has been started and is interrupted, or ends with
    a status other than 0 and a diagnostic that decodes, [create_image]
    leaves with status 1, no file is at the output path any more, whether
    qemu-img created it or it was there before, and gdisk is not
    started. *)
Theorem failed_allocation_is_cleaned_up w output_file size d t :
  existsb is_qemu_img t = false ->
  existsb is_gdisk t = false ->
  existsb is_qemu_img
    (trace (snd (create_image w output_file size {| fs := d; trace := t |}))) = true ->
  (completion (spawn w (qemu_img_argv output_file size)) = Interrupted \/
   exists status,
     completion (spawn w (qemu_img_argv output_file size)) = Exited status /\
     status <> 0 /\
     Py.utf8_valid (captured_stderr (spawn w (qemu_img_argv output_file size))) = true) ->
  fst (create_image w output_file size {| fs := d; trace := t |}) = SysExit 1 /\
  fs (snd (create_image w output_file size {| fs := d; trace := t |}))
  !! output_file = None /\
  existsb is_gdisk
    (trace (snd (create_image w output_file size {| fs := d; trace := t |}))) = false.
Proof.
  intros Ht Hg Hreached Hfail. revert Hreached.
  unfold qemu_img_argv in *. unfold create_image. exec. crunch.
  all: simpl; rewrite ?existsb_app, ?Ht, ?Hg; simpl; intros H; try discriminate H.
  all: zero_status;
    destruct Hfail as [Hfail | (status' & Hfail & Hstatus & Hvalid)];
    try (exfalso; congruence).
  all: split; [reflexivity |]; split; [| reflexivity];
    solve [apply lookup_delete_eq | assumption].
Qed.

Lemma failed_allocation_is_cleaned_up_witness :
  existsb is_qemu_img
    (trace (snd (create_image (sample_world (failing_tool 1 "no space") None)
                   DEFAULT_OUTPUT_FILE "128G" {| fs := archive_only; trace := [] |})))
  = true /\
  fs (snd (create_image (sample_world (failing_tool 1 "no space") None)
             DEFAULT_OUTPUT_FILE "128G" {| fs := archive_only; trace := [] |}))
  !! DEFAULT_OUTPUT_FILE = None.
Proof.
  split; [reflexivity |].
  apply (failed_allocation_is_cleaned_up (sample_world (failing_tool 1 "no space") None)
           DEFAULT_OUTPUT_FILE "128G" archive_only []).
  - reflexivity.
  - reflexivity.
  - reflexivity.
  - right. exists 1. split; [reflexivity | split; [discriminate | reflexivity]].
Defined.

(** ** The run as a whole *)

Lemma logs_are_messages logs :
  forallb is_log logs = true -> forallb is_message logs = true.
Proof.
  induction logs as [|ev logs IH]; simpl; [reflexivity |].
  intros [Hev Hlogs]%andb_true_iff. rewrite (IH Hlogs).
  destruct ev; try discriminate; reflexivity.
Qed.

(** A run, by what the dependency check finds. *)
Lemma run_cases w args disk :
  (recognised w disk = true /\ forallb (which w) required_tools = true /\
   run w args disk =
   match disk !! tar_file with
   | Some _ =>
       create_image w (arg_output args) (arg_size args)
         {| fs := disk;
            trace := [Log INFO banner; Log INFO step_tools; Log INFO step_download;
                      Log INFO (archive_found tar_file); Log INFO step_image] |}
   | None =>
       (Raise FileNotFoundError,
        {| fs := disk;
           trace := [Log INFO banner; Log INFO step_tools; Log INFO step_download;
                     Log INFO (downloading (url_of (mirror_name (arg_mirror args))));
                     Statvfs ""] |})
   end) \/
  ((recognised w disk = false \/ forallb (which w) required_tools = false) /\
   exists logs,
     forallb is_log logs = true /\
     run w args disk
     = (SysExit 1,
        {| fs := disk; trace := [Log INFO banner; Log INFO step_tools] ++ logs |})).
Proof.
  pose proof (check_dependencies_passes w disk [Log INFO banner; Log INFO step_tools])
    as Hpass.
  destruct (check_dependencies_outcome w disk [Log INFO banner; Log INFO step_tools])
    as (logs & r & Hlogs & Hr & Hcheck).
  rewrite Hcheck in Hpass. cbn [fst] in Hpass.
  unfold run, main. unbind. rewrite !logging_eq. cbv beta iota.
  change (([] ++ [Log INFO banner]) ++ [Log INFO step_tools])
    with [Log INFO banner; Log INFO step_tools].
  destruct Hr as [-> | ->].
  - destruct Hpass as [Hpass _]. destruct (Hpass eq_refl) as [Hrec Htools].
    left. split; [assumption |]. split; [assumption |].
    destruct (detect_platform_cases w disk [Log INFO banner; Log INFO step_tools])
      as [(_ & found & Hin & Hdetect) | (Hno & _)]; [| congruence].
    rewrite (check_dependencies_on _ _ _ _ Hdetect).
    apply (nothing_missing w (snd found) (platform_tables _ Hin)) in Htools.
    rewrite Htools. cbv beta iota.
    rewrite logging_eq. cbv beta iota delta [Os.exists_]. cbn [fs].
    destruct (disk !! tar_file) as [c|]; cbn [negb]; cbv iota.
    + rewrite !logging_eq. cbv beta iota. reflexivity.
    + rewrite download_alarm_bare by reflexivity. reflexivity.
  - right. split.
    + destruct (recognised w disk) eqn:Hrec; [| now left].
      destruct (forallb (which w) required_tools) eqn:Htools; [| now right].
      destruct Hpass as [_ Hpass]. now specialize (Hpass (conj eq_refl eq_refl)).
    + exists logs. split; [assumption |]. now rewrite Hcheck.
Qed.

(** X17. When the platform is not recognised or a required tool is
    missing, the run ends with status 1 at the dependency check: the file
    system is as it was and the run consists of messages only; no free
    space is measured, no tool is started, nothing is asked or removed. *)
Theorem failed_dependency_check_stops_run w args disk :
  recognised w disk = false \/ forallb (which w) required_tools = false ->
  fst (run w args disk) = SysExit 1 /\
  disk_of (run w args disk) = disk /\
  forallb is_message (trace_of (run w args disk)) = true.
Proof.
  intros Hfail. unfold disk_of, trace_of.
  destruct (run_cases w args disk)
    as [(Hrec & Htools & _) | (_ & logs & Hlogs & ->)].
  - destruct Hfail; congruence.
  - simpl. repeat split. now apply logs_are_messages.
Qed.

Lemma failed_dependency_check_stops_run_witness :
  forallb (which mac_without_gdisk) required_tools = false /\
  fst (run mac_without_gdisk (sample_args "128G" false) archive_only) = SysExit 1.
Proof.
  split; [reflexivity |].
  apply (failed_dependency_check_stops_run mac_without_gdisk
           (sample_args "128G" false) archive_only).
  right. reflexivity.
Defined.

(** X18. For an ASCII size and an ASCII answer of the operator, a run
    returns exactly when the dependency check passes, the archive is
    already in the working directory, the size passes the check, nothing
    is in the way of the image or the operator says yes, and qemu-img and
    gdisk both succeed; the file system is then what the two tools made of
    the one the run started from.  In particular no run that has to fetch
    the archive returns. *)
Theorem run_returns_iff w args disk :
  Py.isascii (arg_size args) = true ->
  (forall answer, stdin_line w = Some answer -> Py.isascii answer = true) ->
  (fst (run w args disk) = Return tt <->
   recognised w disk = true /\ forallb (which w) required_tools = true /\
   is_Some (disk !! tar_file) /\
   parse_size w (arg_size args) <> None /\
   may_overwrite w disk (arg_output args) /\
   allocation_ok w (arg_output args) (arg_size args) /\
   partitioning_ok w (arg_output args)) /\
  (fst (run w args disk) = Return tt ->
   disk_of (run w args disk)
   = effect (spawn w (gdisk_argv (arg_output args)))
       (effect (spawn w (qemu_img_argv (arg_output args) (arg_size args))) disk)).
Proof.
  intros _ _. unfold disk_of.
  destruct (run_cases w args disk)
    as [(Hrec & Htools & ->) | (Hfail & logs & Hlogs & ->)].
  - destruct (disk !! tar_file) as [c|] eqn:Harchive.
    + destruct (create_image_returns_iff w (arg_output args) (arg_size args) disk
                  [Log INFO banner; Log INFO step_tools; Log INFO step_download;
                   Log INFO (archive_found tar_file); Log INFO step_image])
        as [Hiff Hfs].
      split; [| exact Hfs]. rewrite Hiff. intuition eauto.
    + simpl. split; [| discriminate].
      split; [discriminate |]. intros (_ & _ & [c Hc] & _). discriminate.
  - cbn [fst snd fs]. split; [| discriminate].
    split; [discriminate |]. intros (Hrec & Htools & _). destruct Hfail; congruence.
Qed.

Lemma run_returns_iff_witness :
  Py.isascii (arg_size (sample_args "128G" false)) = true /\
  (forall answer, stdin_line (answering "y") = Some answer ->
                  Py.isascii answer = true) /\
  disk_of (run (answering "y") (sample_args "128G" false) archive_and_image)
  !! DEFAULT_OUTPUT_FILE = Some "partitioned image".
Proof.
  assert (forall answer, stdin_line (answering "y") = Some answer ->
                         Py.isascii answer = true) as Hanswer.
  { intros answer [= <-]. reflexivity. }
  split; [reflexivity |]. split; [exact Hanswer |].
  destruct (run_returns_iff (answering "y") (sample_args "128G" false)
              archive_and_image eq_refl Hanswer) as [[_ Hback] Hdisk].
  rewrite Hdisk; [reflexivity |].
  apply Hback.
  split; [reflexivity |]. split; [reflexivity |].
  split; [now exists "archive" |].
  split; [discriminate |].
  split; [right; exists "y"; split; reflexivity |].
  split; split; reflexivity.
Defined.

(** X19. A run that ends with status 0 either returned or was cancelled
    at the prompt; when it was cancelled a file was at the output path, the
    operator's answer was no yes, no tool was started and the file system
    is as it was. *)
Theorem status_zero_is_success_or_cancellation w args disk :
  status_of (run w args disk) = 0 ->
  fst (run w args disk) = Return tt \/
  (fst (run w args disk) = SysExit 0 /\
   is_Some (disk !! arg_output args) /\
   (exists answer, stdin_line w = Some answer /\ confirms answer = false) /\
   disk_of (run w args disk) = disk /\
   existsb is_run (trace_of (run w args disk)) = false).
Proof.
  unfold status_of, disk_of, trace_of.
  destruct (run_cases w args disk)
    as [(Hrec & Htools & ->) | (Hfail & logs & Hlogs & ->)]; [| discriminate].
  destruct (disk !! tar_file) as [c|]; [| discriminate].
  unfold create_image, confirms. exec. crunch.
  all: simpl; intros H; try discriminate H; try contradiction.
  all: try (left; reflexivity).
  all: right; repeat split; eauto.
  all: eexists; split; [reflexivity |]; now apply negb_true_iff.
Qed.

Lemma status_zero_is_success_or_cancellation_witness :
  status_of (run (answering "no") (sample_args "128G" true) archive_and_image) = 0 /\
  disk_of (run (answering "no") (sample_args "128G" true) archive_and_image)
  = archive_and_image.
Proof.
  split; [reflexivity |].
  destruct (status_zero_is_success_or_cancellation (answering "no")
              (sample_args "128G" true) archive_and_image eq_refl)
    as [H | (_ & _ & _ & H & _)]; [discriminate H | exact H].
Defined.

(** X20. A run depends on the output path, the size and the mirror only:
    the force flag and the conversion target are parsed and never read. *)
Theorem run_ignores_force_and_conversion w args args' disk :
  arg_output args = arg_output args' ->
  arg_size args = arg_size args' ->
  arg_mirror args = arg_mirror args' ->
  run w args disk = run w args' disk.
Proof.
  destruct args, args'. simpl. intros -> -> ->. reflexivity.
Qed.

Lemma run_ignores_force_and_conversion_witness :
  arg_output (sample_args "128G" false)
  = arg_output {| arg_output := DEFAULT_OUTPUT_FILE; arg_size := "128G";
                  arg_mirror := tsinghua; arg_convert_to := Some vmdk;
                  arg_force := true |} /\
  run (answering "n") (sample_args "128G" false) archive_and_image
  = run (answering "n")
      {| arg_output := DEFAULT_OUTPUT_FILE; arg_size := "128G";
         arg_mirror := tsinghua; arg_convert_to := Some vmdk;
         arg_force := true |} archive_and_image.
Proof.
  split; [reflexivity |].
  apply run_ignores_force_and_conversion; reflexivity.
Defined.

(** ** More on the size check *)

Local Open Scope string_scope.

Lemma chars_app a b : chars (a ++ b) = (chars a ++ chars b)%list.
Proof.
  unfold chars. induction a as [|c a IH]; norm_app; simpl; [reflexivity |].
  now rewrite IH.
Qed.

Lemma blank_chars ws : blank ws = true -> forallb magnitude_char (chars ws) = true.
Proof.
  unfold chars, magnitude_char. induction ws as [|c ws IH]; simpl; [reflexivity |].
  intros [Hc Hws]%andb_true_iff. rewrite Hc, (IH Hws), !orb_true_r. reflexivity.
Qed.

Lemma digit_is_magnitude c d :
  Py.digit_value c = Some d -> magnitude_char c = true /\ Py.isdigit c = true.
Proof.
  unfold Py.digit_value, magnitude_char.
  destruct (Py.isdigit c); [auto | discriminate].
Qed.

Lemma numeral_chars body n v :
  numeral body n v ->
  forallb magnitude_char (chars body) = true /\
  existsb Py.isdigit (chars body) = true.
Proof.
  induction 1 as [c d H | s n v c d _ [IHa IHd] H | s n v c d _ [IHa IHd] H];
    destruct (digit_is_magnitude _ _ H) as [Hm Hd];
    rewrite ?chars_app, ?forallb_app, ?existsb_app; simpl;
    rewrite ?IHa, ?IHd, ?Hm, ?Hd; auto.
Qed.

Lemma int_literal_chars max_digits text z :
  int_literal max_digits text z ->
  forallb magnitude_char (chars text) = true /\
  existsb Py.isdigit (chars text) = true.
Proof.
  intros [ws1 sign body ws2 negative n v Hws1 Hws2 Hs Hnum _].
  destruct (numeral_chars _ _ _ Hnum) as [Ha Hd].
  rewrite !chars_app, !forallb_app, !existsb_app.
  rewrite (blank_chars _ Hws1), (blank_chars _ Hws2), Ha, Hd, !orb_true_r.
  split; [| reflexivity]. now destruct Hs.
Qed.

(** X21. An ASCII size that passes the check has, before its unit,
    nothing but digits, underscores, white space and signs, and at least
    one digit: a decimal point, a second letter or an empty magnitude make
    the check fail. *)
Theorem accepted_magnitude_alphabet w size p :
  Py.isascii size = true ->
  parse_size w size = Some p ->
  forallb magnitude_char (chars (Py.init size)) = true /\
  existsb Py.isdigit (chars (Py.init size)) = true.
Proof.
  destruct p as [size_num size_unit]. intros _ H.
  apply parse_size_iff in H as (text & c & -> & Hint & _).
  destruct (init_last_snoc text c) as [-> _].
  now apply int_literal_chars with (max_str_digits w) size_num.
Qed.

Lemma accepted_magnitude_alphabet_witness :
  Py.isascii " +1_024 M" = true /\
  parse_size (sample_world working_tools None) " +1_024 M" = Some (1024, "M"%char) /\
  forallb magnitude_char (chars (Py.init " +1_024 M")) = true.
Proof.
  split; [reflexivity |]. split; [reflexivity |].
  apply (accepted_magnitude_alphabet (sample_world working_tools None)
           " +1_024 M" (1024, "M"%char)); reflexivity.
Defined.



(** X23. A size of fewer than two characters never passes: the empty
    text and a lone letter leave nothing for [int()] to read. *)
Theorem short_sizes_are_refused w size :
  (String.length size < 2)%nat -> parse_size w size = None.
Proof.
  destruct size as [|c [|c' r]]; simpl; intros H; [reflexivity | reflexivity | lia].
Qed.

Lemma short_sizes_are_refused_witness :
  (String.length "G" < 2)%nat /\
  parse_size (sample_world working_tools None) "G" = None.
Proof.
  split; [simpl; lia |].
  apply short_sizes_are_refused. simpl. lia.
Defined.

Lemma digit_facts c :
  Py.isdigit c = true ->
  exists d, Py.digit_value c = Some d /\ 0 <= d /\
            (Ascii.eqb c "0" = false -> 0 < d).
Proof.
  destruct c as [[] [] [] [] [] [] [] []]; try discriminate; intros _;
    eexists; (split; [reflexivity |]); (split; [vm_compute; discriminate |]);
    intros H; try discriminate H; reflexivity.
Qed.

Lemma scan_digits text :
  forallb Py.isdigit (chars text) = true ->
  forall k acc,
    0 <= acc ->
    exists v,
      Py.scan text false k acc = Some ("", (k + length (chars text))%nat, v) /\
      0 <= v /\
      (0 < acc \/ existsb (fun d => negb (Ascii.eqb d "0")) (chars text) = true ->
       0 < v).
Proof.
  unfold chars. induction text as [|c text IH]; simpl; intros Hall k acc Hacc.
  - exists acc. rewrite Nat.add_0_r. split; [reflexivity |].
    split; [assumption |]. intros [H | H]; [assumption | discriminate].
  - apply andb_true_iff in Hall as [Hc Hall].
    destruct (digit_facts c Hc) as (d & Hd & Hd0 & Hpos).
    rewrite (digit_not_underscore _ _ Hd), Hd.
    destruct (IH Hall (S k) (10 * acc + d) ltac:(lia)) as (v & Hscan & Hv & Hvpos).
    exists v. rewrite Hscan. split; [do 3 f_equal; lia |].
    split; [assumption |]. intros Hnz. apply Hvpos.
    destruct Hnz as [H | H]; [left; lia |].
    apply orb_true_iff in H as [H | H]; [| now right].
    left. apply negb_true_iff in H. specialize (Hpos H). lia.
Qed.

(** X24. Every size of the specification's form, a positive decimal
    integer and a unit letter in either case, passes the check when it has
    at most 640 digits, and the integer read is positive. *)
Theorem plain_sizes_pass w size :
  spec_size_token size = true ->
  (length (chars (Py.init size)) <= 640)%nat ->
  exists size_num size_unit,
    parse_size w size = Some (size_num, size_unit) /\ 0 < size_num /\
    unit_letter size_unit.
Proof.
  unfold spec_size_token, parse_size. fold (chars (Py.init size)).
  destruct (Py.last size) as [c|]; [| discriminate].
  intros H Hlen.
  apply andb_true_iff in H as [H Hunit].
  apply andb_true_iff in H as [H Hnonzero].
  apply andb_true_iff in H as [Hsome Hall].
  destruct (scan_digits _ Hall 0%nat 0 ltac:(lia)) as (v & Hscan & _ & Hpos).
  specialize (Hpos (or_intror Hnonzero)).
  assert (Py.int (max_str_digits w) (Py.init size) = Some v) as ->.
  { unfold Py.int. destruct (Py.init size) as [|a r] eqn:E; [discriminate |].
    unfold chars in Hall. simpl in Hall. apply andb_true_iff in Hall as [Ha _].
    destruct (digit_facts a Ha) as (d & Hd & _).
    simpl Py.lstrip_with. rewrite (digit_not_space _ _ Hd).
    rewrite (digit_no_sign _ _ _ Hd).
    cbn [Py.leading_underscore]. rewrite (digit_not_underscore _ _ Hd).
    rewrite Hscan. cbv [chars] in Hlen |- *. simpl length in *.
    cbn [Py.lstrip_with Nat.add].
    assert (Py.over_limit (max_str_digits w)
              (S (length (list_ascii_of_string r))) = false) as ->; [| reflexivity].
    unfold Py.over_limit.
    destruct (Nat.ltb_spec 640 (S (length (list_ascii_of_string r)))); [lia |].
    reflexivity. }
  rewrite Hunit. exists v, (Py.upper_char c).
  split; [reflexivity |]. split; [assumption |].
  now apply unit_letter_existsb.
Qed.

Lemma plain_sizes_pass_witness :
  spec_size_token "128g" = true /\
  exists size_num size_unit,
    parse_size (sample_world working_tools None) "128g" = Some (size_num, size_unit) /\
    0 < size_num /\ unit_letter size_unit.
Proof.
  split; [reflexivity |].
  apply plain_sizes_pass; [reflexivity | simpl; lia].
Defined.
